(** * nanokvm-usb: the command packet codec and the device controller

    A shallow embedding of [nanokvm-usb.py] (helpers, [CmdEvent],
    [CmdPacket], [InfoPacket], [NanoKVM]).

    Python integers are [Z] (unbounded, as in Python), lists of integers are
    [list Z], [x / y] on [Z] is Python's floor division, [Z.land] and
    [Z.shiftr] are Python's [&] and [>>] (both act on the infinite two's
    complement representation).  Operations that can raise are written in an
    exception type; methods that print or talk to the serial port are
    programs over the events they perform, so that one definition serves the
    statements about results and the statements about the order of events. *)

From Stdlib Require Import ZArith List String Ascii Bool Lia.
From Stdlib Require Import SpecFloat DecimalString.
From Stdlib Require Import Permutation.
Import ListNotations.

#[local] Open Scope string_scope.
#[local] Open Scope list_scope.
#[local] Open Scope Z_scope.

(** ** Python exceptions and partial operations *)

(** The exceptions the modelled code can raise.  [Deadlock] is not a Python
    exception: it is what the sequential interpreter answers when a thread
    would block for ever on a lock that is already held. *)
Inductive exn : Type :=
| IndexError
| ValueError (msg : string)
| ZeroDivisionError
| OverflowError
| Deadlock.

Inductive outcome (A : Type) : Type :=
| Ok (a : A)
| Raise (e : exn).

Arguments Ok {A} a.
Arguments Raise {A} e.

Definition obind {A B : Type} (o : outcome A) (f : A -> outcome B) : outcome B :=
  match o with
  | Ok a => f a
  | Raise e => Raise e
  end.

Declare Scope outcome_scope.
Delimit Scope outcome_scope with outcome.
Notation "x <~ o ;; f" := (obind o (fun x => f))
  (at level 61, o at next level, right associativity) : outcome_scope.

Module Py.

(** [len(l)] *)
Definition len (l : list Z) : Z := Z.of_nat (List.length l).

(** [l[i]]: a negative index counts from the end, an index outside the
    list raises [IndexError]. *)
Definition getitem (l : list Z) (i : Z) : outcome Z :=
  let j := if i <? 0 then i + len l else i in
  if (0 <=? j) && (j <? len l) then Ok (nth (Z.to_nat j) l 0)
  else Raise IndexError.

(** A slice bound, as Python normalises it for a step of 1: a negative
    bound counts from the end, and the result is clipped to [0, len]. *)
Definition slice_bound (l : list Z) (i : Z) : Z :=
  let j := if i <? 0 then i + len l else i in
  Z.max 0 (Z.min (len l) j).

(** [l[a:b]]; never raises, and builds a new list. *)
Definition slice (l : list Z) (a b : Z) : list Z :=
  let a' := slice_bound l a in
  let b' := slice_bound l b in
  firstn (Z.to_nat (b' - a')) (skipn (Z.to_nat a') l).

(** [sum(l)]: a left fold starting from 0. *)
Definition sum (l : list Z) : Z := fold_left Z.add l 0.

(** [range(n)] *)
Definition range (n : Z) : list Z := map Z.of_nat (seq 0 (Z.to_nat n)).

(** [a // b] *)
Definition floordiv (a b : Z) : outcome Z :=
  if b =? 0 then Raise ZeroDivisionError else Ok (a / b).

(** [a >> n] *)
Definition rshift (a n : Z) : outcome Z :=
  if n <? 0 then Raise (ValueError "negative shift count")
  else Ok (Z.shiftr a n).

Definition is_u8 (b : Z) : bool := (0 <=? b) && (b <=? 255).

(** [bytes(l)] for a list of integers: every element must be in
    [range(0, 256)]. *)
Definition bytes (l : list Z) : outcome (list Z) :=
  if forallb is_u8 l then Ok l
  else Raise (ValueError "bytes must be in range(0, 256)").

(** A [for i in r:] loop whose body either falls through to the next
    iteration ([None]) or returns from the enclosing function
    ([Some v]); [after] is the code that follows the loop. *)
Fixpoint for_return {A : Type} (r : list Z)
    (body : Z -> outcome (option A)) (after : outcome A) : outcome A :=
  match r with
  | [] => after
  | i :: r' =>
      match body i with
      | Raise e => Raise e
      | Ok (Some v) => Ok v
      | Ok None => for_return r' body after
      end
  end.

End Py.

(** ** Module-level helpers *)

(** [get_bit(value, bit)] *)
Definition get_bit (value bit : Z) : outcome Z :=
  (v <~ Py.rshift value bit ;; Ok (Z.land v 1))%outcome.

(** [int_to_byte(value)] *)
Definition int_to_byte (value : Z) : Z := Z.land value 0xFF.

(** [int_to_little_endian_list(value, length)]; the shift counts [8 * i]
    come from [range(length)] and are never negative. *)
Definition int_to_little_endian_list (value : Z) (length : Z) : list Z :=
  map (fun i => Z.land (Z.shiftr value (8 * i)) 0xFF) (Py.range length).

Inductive CmdEvent : Type :=
| GET_INFO | SEND_KB_GENERAL_DATA | SEND_KB_MEDIA_DATA | SEND_MS_ABS_DATA
| SEND_MS_REL_DATA | SEND_MY_HID_DATA | READ_MY_HID_DATA | GET_PARA_CFG
| SET_PARA_CFG | GET_USB_STRING | SET_USB_STRING | SET_DEFAULT_CFG | RESET.

(** The integer value of an [IntEnum] member. *)
Definition CmdEvent_value (c : CmdEvent) : Z :=
  match c with
  | GET_INFO => 0x01
  | SEND_KB_GENERAL_DATA => 0x02
  | SEND_KB_MEDIA_DATA => 0x03
  | SEND_MS_ABS_DATA => 0x04
  | SEND_MS_REL_DATA => 0x05
  | SEND_MY_HID_DATA => 0x06
  | READ_MY_HID_DATA => 0x87
  | GET_PARA_CFG => 0x08
  | SET_PARA_CFG => 0x09
  | GET_USB_STRING => 0x0A
  | SET_USB_STRING => 0x0B
  | SET_DEFAULT_CFG => 0x0C
  | RESET => 0x0F
  end.

(** ** Programs: the events a method performs *)

(** What a [print] call shows: its literal text and the integers printed
    after it (their rendering as text is not modelled). *)
Record line : Type := Line { line_text : string; line_values : list Z }.

Inductive event : Type -> Type :=
| Print (l : line) : event unit
| SerialWrite (bs : list Z) : event unit
| SerialRead (size : Z) : event (list Z)
| LockAcquire : event unit
| LockRelease : event unit.

Inductive prog (A : Type) : Type :=
| Ret (a : A)
| Throw (e : exn)
| Do {X : Type} (ev : event X) (k : X -> prog A).

Arguments Ret {A} a.
Arguments Throw {A} e.
Arguments Do {A X} ev k.

Fixpoint bind {A B : Type} (p : prog A) (f : A -> prog B) : prog B :=
  match p with
  | Ret a => f a
  | Throw e => Throw e
  | Do ev k => Do ev (fun x => bind (k x) f)
  end.

Definition lift {A : Type} (o : outcome A) : prog A :=
  match o with
  | Ok a => Ret a
  | Raise e => Throw e
  end.

Definition perform {X : Type} (ev : event X) : prog X := Do ev Ret.

Definition print (text : string) (values : list Z) : prog unit :=
  perform (Print (Line text values)).

Declare Scope prog_scope.
Delimit Scope prog_scope with prog.
Notation "x <- p ;; f" := (bind p (fun x => f))
  (at level 61, p at next level, right associativity) : prog_scope.
Notation "p ;; f" := (bind p (fun _ => f))
  (at level 61, right associativity) : prog_scope.

(** ** The world a program runs in *)

Inductive io_record : Type :=
| Wrote (bs : list Z)
| DidRead (size : Z) (bs : list Z).

(** [stdout]: the lines printed so far; [serial_rx]: the bytes the device
    has sent and the host has not read yet; [serial_log]: the calls made on
    the serial port, oldest first; [write_lock_held]: the state of the
    controller's [_write_lock].  The serial port itself does not fail here:
    an exception of the transport would pass through every method, none of
    which has a handler for it. *)
Record World : Type := mkWorld {
  stdout : list line;
  serial_rx : list Z;
  serial_log : list io_record;
  write_lock_held : bool
}.

Definition world0 : World := mkWorld [] [] [] false.

(** One event on the world.  [None]: the calling thread is blocked
    ([acquire] on a held lock).  [read(size)] returns at most [size] of the
    pending bytes. *)
Definition handle {X : Type} (ev : event X) (w : World) : option (X * World) :=
  match ev in event T return option (T * World) with
  | Print l =>
      Some (tt, mkWorld (stdout w ++ [l]) (serial_rx w) (serial_log w)
                        (write_lock_held w))
  | SerialWrite bs =>
      Some (tt, mkWorld (stdout w) (serial_rx w) (serial_log w ++ [Wrote bs])
                        (write_lock_held w))
  | SerialRead size =>
      let got := firstn (Z.to_nat size) (serial_rx w) in
      Some (got, mkWorld (stdout w) (skipn (Z.to_nat size) (serial_rx w))
                         (serial_log w ++ [DidRead size got])
                         (write_lock_held w))
  | LockAcquire =>
      if write_lock_held w then None
      else Some (tt, mkWorld (stdout w) (serial_rx w) (serial_log w) true)
  | LockRelease =>
      Some (tt, mkWorld (stdout w) (serial_rx w) (serial_log w) false)
  end.

(** A single thread running a program to its end. *)
Fixpoint run {A : Type} (p : prog A) (w : World) : outcome A * World :=
  match p with
  | Ret a => (Ok a, w)
  | Throw e => (Raise e, w)
  | Do ev k =>
      match handle ev w with
      | Some (x, w') => run (k x) w'
      | None => (Raise Deadlock, w)
      end
  end.

(** ** class CmdPacket *)

Definition HEAD1 : Z := 0x57.
Definition HEAD2 : Z := 0xAB.

Record CmdPacket : Type := mkCmdPacket {
  ADDR : Z;
  CMD : Z;
  LEN : Z;
  DATA : list Z;
  SUM : Z
}.

(** [CmdPacket.encode] *)
Definition encode (self : CmdPacket) : list Z :=
  [HEAD1; HEAD2; ADDR self; CMD self; LEN self] ++ DATA self ++ [SUM self].

(** [CmdPacket._find_head]: the loop body reads [lst[i]] and, only when it
    is [HEAD1] ([and] short-circuits), [lst[i + 1]]. *)
Definition _find_head (lst : list Z) : outcome Z :=
  Py.for_return (Py.range (Py.len lst - 1))
    (fun i =>
       a <~ Py.getitem lst i ;;
       if a =? HEAD1 then
         b <~ Py.getitem lst (i + 1) ;;
         if b =? HEAD2 then Ok (Some i) else Ok None
       else Ok None)%outcome
    (Ok (-1)).

(** [CmdPacket._save] *)
Definition _save (self : CmdPacket) (addr cmd : Z) (data : list Z) : CmdPacket :=
  let total := HEAD1 + HEAD2 + addr + cmd + Py.len data + Py.sum data in
  mkCmdPacket addr cmd (Py.len data) data (Z.land total 0xFF).

(** [CmdPacket.decode].  The method receives [self] and a reference to the
    list [raw]; the model returns, with the integer the method returns, the
    two objects as the call leaves them.  No statement of the method assigns
    into [raw], and both slices build new lists. *)
Definition decode (self : CmdPacket) (raw : list Z)
  : prog (Z * CmdPacket * list Z) :=
  (hi <- lift (_find_head raw) ;;
   if hi <? 0 then
     print "cannot find HEAD" [] ;; Ret (-1, self, raw)
   else if Py.len raw - hi <? 6 then
     print "len error1" [] ;; Ret (-1, self, raw)
   else
     addr <- lift (Py.getitem raw (hi + 2)) ;;
     cmd <- lift (Py.getitem raw (hi + 3)) ;;
     data_len <- lift (Py.getitem raw (hi + 4)) ;;
     if Py.len raw <? hi + 5 + data_len + 1 then
       print "len error2" [] ;; Ret (-1, self, raw)
     else
       match Py.getitem raw (hi + 5 + data_len) with
       | Raise IndexError => print "len error3" [] ;; Ret (-1, self, raw)
       | Raise e => Throw e
       | Ok summ =>
           let s := Py.sum (Py.slice raw hi (hi + 5 + data_len)) in
           if negb (Z.land s 0xFF =? summ) then
             (* checksum mismatch *)
             Ret (-1, self, raw)
           else
             Ret (0,
                  mkCmdPacket addr cmd data_len
                    (Py.slice raw (hi + 5) (hi + 5 + data_len)) summ,
                  raw)
       end)%prog.

(** [CmdPacket.__init__]; [data = None] is the default argument. *)
Definition CmdPacket__init__ (addr cmd : Z) (data : option (list Z))
  : prog CmdPacket :=
  let self := mkCmdPacket 0x00 0x00 0x00 [] 0x00 in
  let data := match data with None => [] | Some d => d end in
  if (addr <? 0) || (cmd <? 0) then
    (r <- decode self data ;; Ret (snd (fst r)))%prog
  else Ret (_save self addr cmd data).

(** ** class InfoPacket *)

(** Python floats are IEEE 754 binary64 numbers. *)
Definition float : Type := spec_float.
Definition float_prec : Z := 53.
Definition float_emax : Z := 1024.

(** A float literal with an integer value, such as [1.0] or [10.0]. *)
Definition float_lit (n : Z) : float :=
  binary_normalize float_prec float_emax n 0 false.

(** The conversion of the integer operand of [int / float]: rounded to the
    nearest float, [OverflowError] when the integer is too large. *)
Definition float_of_int (n : Z) : outcome float :=
  match binary_normalize float_prec float_emax n 0 false with
  | S754_infinity _ => Raise OverflowError
  | f => Ok f
  end.

Definition nat_digits (n : Z) : string :=
  NilZero.string_of_uint (N.to_uint (Z.to_N n)).

(** [format(x, ".1f")]: the exact value of the float, rounded to one
    decimal place, halves to even. *)
Definition format_1f (x : float) : string :=
  match x with
  | S754_zero s => if s then "-0.0" else "0.0"
  | S754_infinity s => if s then "-inf" else "inf"
  | S754_nan => "nan"
  | S754_finite s m e =>
      let num := Z.pos m * 10 * 2 ^ Z.max 0 e in
      let den := 2 ^ Z.max 0 (- e) in
      let q := num / den in
      let r := num mod den in
      let tenths :=
        if 2 * r <? den then q
        else if den <? 2 * r then q + 1
        else if Z.even q then q else q + 1 in
      (if s then "-" else "") ++
      nat_digits (tenths / 10) ++ "." ++ nat_digits (tenths mod 10)
  end.

Record InfoPacket : Type := mkInfoPacket {
  CHIP_VERSION : string;
  IS_CONNECTED : bool;
  NUM_LOCK : bool;
  CAPS_LOCK : bool;
  SCROLL_LOCK : bool
}.

(** [InfoPacket.__init__] *)
Definition InfoPacket__init__ (data : list Z) : outcome InfoPacket :=
  (d0 <~ Py.getitem data 0 ;;
   if d0 <? 0x30 then Raise (ValueError "version error")
   else
     d0' <~ Py.getitem data 0 ;;
     let version_e := d0' - 0x30 in
     fe <~ float_of_int version_e ;;
     let version :=
       SFadd float_prec float_emax (float_lit 1)
         (SFdiv float_prec float_emax fe (float_lit 10)) in
     let chip_version := ("V" ++ format_1f version)%string in
     d1 <~ Py.getitem data 1 ;;
     d2 <~ Py.getitem data 2 ;;
     b0 <~ get_bit d2 0 ;;
     d2' <~ Py.getitem data 2 ;;
     b1 <~ get_bit d2' 1 ;;
     d2'' <~ Py.getitem data 2 ;;
     b2 <~ get_bit d2'' 2 ;;
     Ok (mkInfoPacket chip_version (negb (d1 =? 0))
           (b0 =? 1) (b1 =? 1) (b2 =? 1)))%outcome.

(** ** class NanoKVM *)

(** The controller object.  Its [serial_port] and its [_write_lock] are
    shared, mutable objects: they live in the [World] ([serial_rx],
    [serial_log], [write_lock_held]) and are reached through events.
    [NanoKVM.__init__] stores [addr] and creates the lock, unlocked. *)
Record NanoKVM : Type := mkNanoKVM { addr : Z }.

(** [NanoKVM.get_info] *)
Definition get_info (self : NanoKVM) : prog InfoPacket :=
  (p <- CmdPacket__init__ (addr self) (CmdEvent_value GET_INFO) None ;;
   let pkt := encode p in
   bs <- lift (Py.bytes pkt) ;;
   perform (SerialWrite bs) ;;
   raw <- perform (SerialRead 14) ;;
   print "RAW INFO RESPONSE:" raw ;;
   p1 <- CmdPacket__init__ (-1) (-1) (Some raw) ;;
   r <- decode p1 raw ;;
   let ret := fst (fst r) in
   print "decode() returned" [ret] ;;
   rsp <- CmdPacket__init__ (-1) (-1) (Some raw) ;;
   lift (InfoPacket__init__ (DATA rsp)))%prog.

(** [NanoKVM.send_hid_report]; [data[:8]] is the slice from the start. *)
Definition send_hid_report (self : NanoKVM) (data : list Z) : prog unit :=
  (p <- CmdPacket__init__ (addr self) (CmdEvent_value SEND_KB_GENERAL_DATA)
          (Some (Py.slice data 0 8)) ;;
   let pkt := encode p in
   bs <- lift (Py.bytes pkt) ;;
   perform (SerialWrite bs))%prog.

(** [NanoKVM.send_keyboard_data] *)
Definition send_keyboard_data (self : NanoKVM) (modifier key : Z) : prog unit :=
  let data := [modifier; 0x00; 0x00; 0x00; key; 0x00; 0x00; 0x00] in
  send_hid_report self data.

(** [NanoKVM.send_mouse_relative_data] *)
Definition send_mouse_relative_data (self : NanoKVM) (key x y scroll : Z)
  : prog unit :=
  (let x_b := int_to_byte x in
   let y_b := int_to_byte y in
   let data := [0x01; key; x_b; y_b; scroll] in
   p <- CmdPacket__init__ (addr self) (CmdEvent_value SEND_MS_REL_DATA)
          (Some data) ;;
   let pkt := encode p in
   bs <- lift (Py.bytes pkt) ;;
   perform (SerialWrite bs))%prog.

(** [NanoKVM.send_mouse_absolute_data] *)
Definition send_mouse_absolute_data (self : NanoKVM)
    (key width height x y scroll : Z) : prog unit :=
  (x_abs <- (if width =? 0 then Ret 0
             else lift (Py.floordiv (x * 4096) width)) ;;
   y_abs <- (if height =? 0 then Ret 0
             else lift (Py.floordiv (y * 4096) height)) ;;
   let x_le := int_to_little_endian_list x_abs 2 in
   let y_le := int_to_little_endian_list y_abs 2 in
   let data := [0x02; key] ++ x_le ++ y_le ++ [scroll] in
   p <- CmdPacket__init__ (addr self) (CmdEvent_value SEND_MS_ABS_DATA)
          (Some data) ;;
   let pkt := encode p in
   bs <- lift (Py.bytes pkt) ;;
   perform (SerialWrite bs))%prog.

(** ** Reading aids for the statements

    The definitions below are not in the source: they name what the
    statements talk about. *)

(** The frame [[0x57, 0xAB, address, command, len(payload), payload...,
    checksum]] of the wire format. *)
Definition checksum (address command : Z) (payload : list Z) : Z :=
  (0x57 + 0xAB + address + command + Py.len payload + Py.sum payload) mod 256.

Definition frame (address command : Z) (payload : list Z) : list Z :=
  [0x57; 0xAB; address; command; Py.len payload] ++ payload
    ++ [checksum address command payload].

(** [CmdPacket(address, command, payload).encode()], the way every method
    of [NanoKVM] builds the list it sends. *)
Definition encode_packet (address command : Z) (payload : list Z)
  : prog (list Z) :=
  (p <- CmdPacket__init__ address command (Some payload) ;;
   Ret (encode p))%prog.

(** Sending a list of integers: [self.serial_port.write(bytes(pkt))]. *)
Definition write_list (pkt : list Z) : prog unit :=
  (bs <- lift (Py.bytes pkt) ;; perform (SerialWrite bs))%prog.

(** The scaled coordinate as the specification writes it:
    [(v * 4096) // dim], and 0 when [dim] is 0. *)
Definition scaled (v dim : Z) : Z :=
  if dim =? 0 then 0 else (v * 4096) / dim.

(** The payload of an absolute mouse report for scaled coordinates
    [x_abs], [y_abs]. *)
Definition absolute_payload (key x_abs y_abs scroll : Z) : list Z :=
  [0x02; key; Z.land x_abs 0xFF; Z.land (Z.shiftr x_abs 8) 0xFF;
   Z.land y_abs 0xFF; Z.land (Z.shiftr y_abs 8) 0xFF; scroll].

(** A sync pair [0x57, 0xAB] starts at index [i] of [l]. *)
Definition sync_at (l : list Z) (i : nat) : bool :=
  match nth_error l i, nth_error l (S i) with
  | Some a, Some b => (a =? 0x57) && (b =? 0xAB)
  | _, _ => false
  end.

(** The failures of the frame decoder, as the specification names them.
    [decode] itself answers [-1] for each; what tells them apart is the line
    it prints before returning: ["cannot find HEAD"] after the header scan,
    ["len error1"], ["len error2"] or ["len error3"] after a length check,
    and nothing when the checksum differs. *)
Inductive DecodeError : Type :=
| HeaderNotFound
| Truncated
| ChecksumMismatch.

Definition classify_failure (printed : list line) : option DecodeError :=
  match printed with
  | [] => Some ChecksumMismatch
  | [Line text []] =>
      if String.eqb text "cannot find HEAD" then Some HeaderNotFound
      else if String.eqb text "len error1" then Some Truncated
      else if String.eqb text "len error2" then Some Truncated
      else if String.eqb text "len error3" then Some Truncated
      else None
  | _ => None
  end.

(** The result of [decode] on a fresh, all-zero packet and [raw]: the
    decoded packet, or the failure. *)
Inductive decoded : Type :=
| Decoded (p : CmdPacket)
| Failed (err : DecodeError)
| Crashed.

Definition zero_packet : CmdPacket := mkCmdPacket 0 0 0 [] 0.

Definition decode_result (raw : list Z) : decoded :=
  match run (decode zero_packet raw) world0 with
  | (Ok (ret, p, _), w) =>
      if ret =? 0 then Decoded p
      else match classify_failure (stdout w) with
           | Some err => Failed err
           | None => Crashed
           end
  | (Raise _, _) => Crashed
  end.

(** The structural form of the header scan: the index, counted from [i], of
    the first sync pair of [l], or [-1]. *)
Fixpoint scan (i : Z) (l : list Z) : Z :=
  match l with
  | a :: (b :: _) as t =>
      if (a =? HEAD1) && (b =? HEAD2) then i else scan (i + 1) t
  | _ => -1
  end.

(** ** The controller's lock *)

(** [p], then [cleanup] whether [p] returns or raises. *)
Fixpoint ensure {A : Type} (p : prog A) (cleanup : prog unit) : prog A :=
  match p with
  | Ret a => (cleanup ;; Ret a)%prog
  | Throw e => (cleanup ;; Throw e)%prog
  | Do ev k => Do ev (fun x => ensure (k x) cleanup)
  end.

(** What holding the lock around a call would be: the lock is acquired
    before the call and released when the call returns or raises.  No method
    of the source is written this way. *)
Definition with_write_lock {A : Type} (p : prog A) : prog A :=
  (perform LockAcquire ;; ensure p (perform LockRelease))%prog.

Definition is_lock_event {X : Type} (ev : event X) : bool :=
  match ev with
  | LockAcquire | LockRelease => true
  | _ => false
  end.

(** The transport events, [write] and [read] on the serial port. *)
Definition is_transport_event {X : Type} (ev : event X) : bool :=
  match ev with
  | SerialWrite _ | SerialRead _ => true
  | _ => false
  end.

(** Whether the running thread holds the lock after an event. *)
Definition lock_after {X : Type} (ev : event X) (held : bool) : bool :=
  match ev with
  | LockAcquire => true
  | LockRelease => false
  | _ => held
  end.

(** A program that holds the lock around its transport calls: started
    with the lock [held] or not by the running thread, on every path each
    [write] and each [read] happens while the thread holds the lock. *)
Fixpoint transport_under_lock {A : Type} (held : bool) (p : prog A) : Prop :=
  match p with
  | Ret _ => True
  | Throw _ => True
  | Do ev k =>
      (is_transport_event ev = true -> held = true) /\
      forall x, transport_under_lock (lock_after ev held) (k x)
  end.

(** A program none of whose events, on any path, is on the lock. *)
Inductive never_locks {A : Type} : prog A -> Prop :=
| never_locks_Ret (a : A) : never_locks (Ret a)
| never_locks_Throw (e : exn) : never_locks (Throw e)
| never_locks_Do {X : Type} (ev : event X) (k : X -> prog A) :
    is_lock_event ev = false ->
    (forall x, never_locks (k x)) ->
    never_locks (Do ev k).

(** The world after one more line, without values, has been printed. *)
Definition printed (w : World) (text : string) : World :=
  mkWorld (stdout w ++ [Line text []]) (serial_rx w) (serial_log w)
          (write_lock_held w).

(** What a run of [decode] amounts to, with the header index taken from
    [scan] and the three header reads done by position. *)
Definition decode_view (self : CmdPacket) (raw : list Z) (w : World)
  : outcome (Z * CmdPacket * list Z) * World :=
  let hi := scan 0 raw in
  if hi <? 0 then (Ok (-1, self, raw), printed w "cannot find HEAD")
  else if Py.len raw - hi <? 6 then (Ok (-1, self, raw), printed w "len error1")
  else
    let addr := nth (Z.to_nat (hi + 2)) raw 0 in
    let cmd := nth (Z.to_nat (hi + 3)) raw 0 in
    let data_len := nth (Z.to_nat (hi + 4)) raw 0 in
    if Py.len raw <? hi + 5 + data_len + 1 then
      (Ok (-1, self, raw), printed w "len error2")
    else
      match Py.getitem raw (hi + 5 + data_len) with
      | Raise _ => (Ok (-1, self, raw), printed w "len error3")
      | Ok summ =>
          if Z.land (Py.sum (Py.slice raw hi (hi + 5 + data_len))) 0xFF =? summ
          then (Ok (0,
                    mkCmdPacket addr cmd data_len
                      (Py.slice raw (hi + 5) (hi + 5 + data_len)) summ,
                    raw), w)
          else (Ok (-1, self, raw), w)
      end.

(** The fields of a well-formed packet: address and command are bytes, the
    payload is at most 255 bytes. *)
Definition valid_fields (address command : Z) (payload : list Z) : bool :=
  Py.is_u8 address && Py.is_u8 command && forallb Py.is_u8 payload
  && (List.length payload <=? 255)%nat.

(** The packet object that [CmdPacket(-1, -1, raw)] leaves: the decoded
    fields, or the all-zero fields when decoding fails. *)
Definition received_packet (raw : list Z) : CmdPacket :=
  match decode_result raw with
  | Decoded p => p
  | _ => zero_packet
  end.

(** A world whose serial port holds the bytes [rx], unread. *)
Definition world_with_rx (rx : list Z) : World := mkWorld [] rx [] false.

(** ** gui.py *)

(** [str(n)] for an integer [n]. *)
Definition str_int (n : Z) : string :=
  if n <? 0 then ("-" ++ nat_digits (- n))%string else nat_digits n.

(** A Python dict with integer keys: its items, in insertion order.
    Setting a key that is present replaces its value in place. *)
Fixpoint dict_set {V : Type} (d : list (Z * V)) (k : Z) (v : V)
  : list (Z * V) :=
  match d with
  | [] => [(k, v)]
  | (k', v') :: t =>
      if k' =? k then (k', v) :: t else (k', v') :: dict_set t k v
  end.

(** [d.get(k)] *)
Fixpoint dict_get {V : Type} (d : list (Z * V)) (k : Z) : option V :=
  match d with
  | [] => None
  | (k', v') :: t => if k' =? k then Some v' else dict_get t k
  end.

(** A dict display or comprehension: the items are set one after the
    other, so that of two items with the same key the later one stays. *)
Definition dict_of_items {V : Type} (items : list (Z * V)) : list (Z * V) :=
  fold_left (fun d kv => dict_set d (fst kv) (snd kv)) items [].

(** The window that captures the keys; [device] is the controller. *)
Record KeyCaptureWindow : Type := mkKeyCaptureWindow { device : NanoKVM }.

(** A key event of Qt, by what its three methods read by the handlers
    return. *)
Record QKeyEvent : Type := mkQKeyEvent {
  isAutoRepeat : bool;
  modifiers : Z;
  key : Z
}.

(** The names and HID usage codes of the display of
    [qt_to_hid_int_map], in the order of the source; the key of each item is
    the attribute of [Qt] of that name. *)
Definition qt_to_hid_items : list (string * Z) :=
  [("Key_A", 0x04); ("Key_B", 0x05); ("Key_C", 0x06); ("Key_D", 0x07);
   ("Key_E", 0x08); ("Key_F", 0x09); ("Key_G", 0x0A); ("Key_H", 0x0B);
   ("Key_I", 0x0C); ("Key_J", 0x0D); ("Key_K", 0x0E); ("Key_L", 0x0F);
   ("Key_M", 0x10); ("Key_N", 0x11); ("Key_O", 0x12); ("Key_P", 0x13);
   ("Key_Q", 0x14); ("Key_R", 0x15); ("Key_S", 0x16); ("Key_T", 0x17);
   ("Key_U", 0x18); ("Key_V", 0x19); ("Key_W", 0x1A); ("Key_X", 0x1B);
   ("Key_Y", 0x1C); ("Key_Z", 0x1D);
   ("Key_1", 0x1E); ("Key_2", 0x1F); ("Key_3", 0x20); ("Key_4", 0x21);
   ("Key_5", 0x22); ("Key_6", 0x23); ("Key_7", 0x24); ("Key_8", 0x25);
   ("Key_9", 0x26); ("Key_0", 0x27);
   ("Key_Return", 0x28); ("Key_Enter", 0x28); ("Key_Escape", 0x29);
   ("Key_Backspace", 0x2A); ("Key_Tab", 0x2B); ("Key_Space", 0x2C);
   ("Key_Minus", 0x2D); ("Key_Equal", 0x2E); ("Key_BracketLeft", 0x2F);
   ("Key_BracketRight", 0x30); ("Key_Backslash", 0x31);
   ("Key_Semicolon", 0x33); ("Key_Apostrophe", 0x34);
   ("Key_QuoteLeft", 0x35); ("Key_Comma", 0x36); ("Key_Period", 0x37);
   ("Key_Slash", 0x38);
   ("Key_Shift", 0xE1); ("Key_Control", 0xE0);
   ("Key_Alt", 0xE2); ("Key_Meta", 0xE3);
   ("Key_Left", 0x50); ("Key_Right", 0x4F);
   ("Key_Up", 0x52); ("Key_Down", 0x51);
   ("Key_F1", 0x3A); ("Key_F2", 0x3B); ("Key_F3", 0x3C); ("Key_F4", 0x3D);
   ("Key_F5", 0x3E); ("Key_F6", 0x3F); ("Key_F7", 0x40); ("Key_F8", 0x41);
   ("Key_F9", 0x42); ("Key_F10", 0x43); ("Key_F11", 0x44); ("Key_F12", 0x45);
   ("Key_NumLock", 0x53); ("Key_Slash", 0x54);
   ("Key_Asterisk", 0x55); ("Key_Minus", 0x56)].

Section Gui.

(** The namespace [Qt] of PyQt5 is not part of the repository.  [Qt name]
    is the integer value of its attribute [name] ([Qt.Key_A],
    [Qt.ShiftModifier], ...), and [Qt_dir] is [dir(Qt)], the list of its
    attribute names. *)
Variable Qt : string -> Z.
Variable Qt_dir : list string.

(** [qt_to_hid_int_map] *)
Definition qt_to_hid_int_map : list (Z * Z) :=
  dict_of_items (map (fun item => (Qt (fst item), snd item)) qt_to_hid_items).

(** [qt_key_name_map]: the reverse lookup of the [Key_] attributes. *)
Definition qt_key_name_map : list (Z * string) :=
  dict_of_items
    (map (fun name => (Qt name, name))
       (filter (fun name => String.prefix "Key_" name) Qt_dir)).

(** [qt_key_code_to_name] *)
Definition qt_key_code_to_name (key_code : Z) : string :=
  match dict_get qt_key_name_map key_code with
  | Some name => name
  | None => ("UnknownKey(" ++ str_int key_code ++ ")")%string
  end.

(** [KeyCaptureWindow.keyPressEvent]; a flag test such as
    [event.modifiers() & Qt.ShiftModifier] is true when the result is not
    zero, and [if hid_code:] is false for [None] and for 0. *)
Definition keyPressEvent (self : KeyCaptureWindow) (event : QKeyEvent)
  : prog unit :=
  if isAutoRepeat event then Ret tt
  else
    let mod_ := 0x00 in
    let mod_ :=
      if negb (Z.land (modifiers event) (Qt "ShiftModifier") =? 0)
      then Z.lor mod_ 0x02 else mod_ in
    let mod_ :=
      if negb (Z.land (modifiers event) (Qt "ControlModifier") =? 0)
      then Z.lor mod_ 0x01 else mod_ in
    let mod_ :=
      if negb (Z.land (modifiers event) (Qt "AltModifier") =? 0)
      then Z.lor mod_ 0x04 else mod_ in
    let key_ := key event in
    let hid_code := dict_get qt_to_hid_int_map key_ in
    let name := qt_key_code_to_name key_ in
    let unhandled :=
      (let key_ := key event in
       let name := qt_key_code_to_name key_ in
       print ("Unhandled key event : " ++ str_int key_ ++ " " ++ name)%string
         []) in
    match hid_code with
    | Some h =>
        if negb (h =? 0) then
          (print ("Sending key " ++ name ++ " as " ++ str_int h)%string [] ;;
           send_keyboard_data (device self) mod_ h)%prog
        else unhandled
    | None => unhandled
    end.

(** [KeyCaptureWindow.keyReleaseEvent] *)
Definition keyReleaseEvent (self : KeyCaptureWindow) (event : QKeyEvent)
  : prog unit :=
  send_keyboard_data (device self) 0x00 0x00.

End Gui.

(** The value of the last item of [items] whose key is [k], if any. *)
Definition last_item {V : Type} (items : list (Z * V)) (k : Z) : option V :=
  fold_left (fun found kv => if fst kv =? k then Some (snd kv) else found)
    items None.

(** The modifier byte for the three flags, as [keyPressEvent] builds it:
    bit 0 for Control, bit 1 for Shift, bit 2 for Alt. *)
Definition modifier_byte (shift control alt : bool) : Z :=
  (if control then 1 else 0) + (if shift then 2 else 0)
  + (if alt then 4 else 0).

(** ** Reading aids for the further properties *)

(** The integer a list of bytes stands for, least significant byte first. *)
Definition le_value (bs : list Z) : Z :=
  fold_right (fun b acc => b + 256 * acc) 0 bs.

(** A byte read as a signed 8-bit integer (two's complement). *)
Definition signed_byte (b : Z) : Z := if b <? 128 then b else b - 256.

(** A packet object whose length and checksum fields agree with its other
    fields, as on the wire. *)
Definition consistent (p : CmdPacket) : Prop :=
  LEN p = Py.len (DATA p) /\ SUM p = checksum (ADDR p) (CMD p) (DATA p).

(** The world after one more [write] on the serial port. *)
Definition written (w : World) (pkt : list Z) : World :=
  mkWorld (stdout w) (serial_rx w) (serial_log w ++ [Wrote pkt])
          (write_lock_held w).

(** A method that either writes one list of bytes to the serial port and
    returns, or raises the [ValueError] of [bytes] having written nothing;
    in both cases it reads nothing and leaves the lock alone. *)
Definition writes_one_frame_or_fails (p : prog unit) : Prop :=
  forall w,
    exists w',
      serial_rx w' = serial_rx w /\
      write_lock_held w' = write_lock_held w /\
      ((run p w = (Ok tt, w') /\
        exists pkt, forallb Py.is_u8 pkt = true /\
                    serial_log w' = serial_log w ++ [Wrote pkt])
       \/
       (run p w = (Raise (ValueError "bytes must be in range(0, 256)"), w') /\
        serial_log w' = serial_log w)).

(** * Properties *)

(** ** Python lists *)

Lemma fold_left_add_shift (l : list Z) (a : Z) :
  fold_left Z.add l a = a + fold_left Z.add l 0.
Proof.
  revert a; induction l as [|x l IH]; intros a; simpl.
  - lia.
  - rewrite (IH (a + x)), (IH x). lia.
Qed.

Lemma sum_nil : Py.sum [] = 0.
Proof. reflexivity. Qed.

Lemma sum_cons (x : Z) (l : list Z) : Py.sum (x :: l) = x + Py.sum l.
Proof. unfold Py.sum; simpl. apply fold_left_add_shift. Qed.

Lemma sum_app (l1 l2 : list Z) : Py.sum (l1 ++ l2) = Py.sum l1 + Py.sum l2.
Proof.
  induction l1 as [|x l1 IH]; cbn [app].
  - rewrite sum_nil; lia.
  - rewrite !sum_cons, IH; lia.
Qed.

Lemma len_nonneg (l : list Z) : 0 <= Py.len l.
Proof. unfold Py.len; lia. Qed.

Lemma len_cons (x : Z) (l : list Z) : Py.len (x :: l) = 1 + Py.len l.
Proof. unfold Py.len; simpl List.length; lia. Qed.

(** An index inside the list reads the element and does not raise. *)
Lemma getitem_in_range (l : list Z) (i : Z) :
  0 <= i < Py.len l -> Py.getitem l i = Ok (nth (Z.to_nat i) l 0).
Proof.
  intros H. unfold Py.getitem.
  destruct (Z.ltb_spec i 0); [lia|].
  destruct (Z.leb_spec 0 i); [|lia].
  destruct (Z.ltb_spec i (Py.len l)); [|lia].
  reflexivity.
Qed.

(** Whatever the index, reading an element returns or raises [IndexError]. *)
Lemma getitem_cases (l : list Z) (i : Z) :
  (exists v, Py.getitem l i = Ok v) \/ Py.getitem l i = Raise IndexError.
Proof.
  unfold Py.getitem.
  destruct ((0 <=? _) && (_ <? _)); [left; eauto | right; reflexivity].
Qed.

Lemma slice_in_range (l : list Z) (a b : Z) :
  0 <= a -> a <= b -> b <= Py.len l ->
  Py.slice l a b = firstn (Z.to_nat (b - a)) (skipn (Z.to_nat a) l).
Proof.
  intros Ha Hab Hb. unfold Py.slice, Py.slice_bound.
  destruct (Z.ltb_spec a 0); [lia|].
  destruct (Z.ltb_spec b 0); [lia|].
  replace (Z.max 0 (Z.min (Py.len l) a)) with a by lia.
  replace (Z.max 0 (Z.min (Py.len l) b)) with b by lia.
  reflexivity.
Qed.

Lemma skipn_cons_nth (l : list Z) (k : nat) (a : Z) (rest : list Z) :
  skipn k l = a :: rest ->
  (k < List.length l)%nat /\ nth k l 0 = a /\ skipn (S k) l = rest.
Proof.
  revert l; induction k as [|k IH]; intros l H.
  - destruct l; simpl in *; [discriminate|]. inversion H; subst.
    repeat split; simpl; lia.
  - destruct l as [|x l]; simpl in H; [discriminate|].
    destruct (IH l H) as (H1 & H2 & H3).
    repeat split; simpl; try lia; assumption.
Qed.

(** ** The header scan *)

Lemma find_head_loop (lst : list Z) (n k : nat) :
  n = (List.length (skipn k lst) - 1)%nat ->
  Py.for_return (map Z.of_nat (seq k n))
    (fun i =>
       a <~ Py.getitem lst i ;;
       if a =? HEAD1 then
         b <~ Py.getitem lst (i + 1) ;;
         if b =? HEAD2 then Ok (Some i) else Ok None
       else Ok None)%outcome
    (Ok (-1))
  = Ok (scan (Z.of_nat k) (skipn k lst)).
Proof.
  revert k; induction n as [|n IH]; intros k Hn.
  - simpl. destruct (skipn k lst) as [|a [|b t]]; simpl in *; try reflexivity.
    discriminate.
  - destruct (skipn k lst) as [|a [|b t]] eqn:E; simpl in Hn; try discriminate.
    destruct (skipn_cons_nth _ _ _ _ E) as (Hk & Ha & E').
    destruct (skipn_cons_nth _ _ _ _ E') as (Hk' & Hb & _).
    cbn [seq map Py.for_return].
    rewrite (getitem_in_range lst (Z.of_nat k)) by (unfold Py.len; lia).
    rewrite Nat2Z.id, Ha. cbn [obind scan].
    destruct (a =? HEAD1) eqn:Ea; cbn [andb].
    + rewrite (getitem_in_range lst (Z.of_nat k + 1)) by (unfold Py.len; lia).
      replace (Z.to_nat (Z.of_nat k + 1)) with (S k) by lia.
      rewrite Hb. cbn [obind].
      destruct (b =? HEAD2) eqn:Eb; [reflexivity|].
      rewrite (IH (S k)) by (rewrite E'; simpl; lia).
      rewrite E'. replace (Z.of_nat (S k)) with (Z.of_nat k + 1) by lia.
      reflexivity.
    + rewrite (IH (S k)) by (rewrite E'; simpl; lia).
      rewrite E'. replace (Z.of_nat (S k)) with (Z.of_nat k + 1) by lia.
      reflexivity.
Qed.

(** The loop of [_find_head] never raises and computes [scan]. *)
Lemma find_head_scan (lst : list Z) : _find_head lst = Ok (scan 0 lst).
Proof.
  unfold _find_head, Py.range.
  rewrite (find_head_loop lst (Z.to_nat (Py.len lst - 1)) 0).
  - reflexivity.
  - simpl skipn. unfold Py.len. lia.
Qed.

Lemma scan_cons2 (a b : Z) (t : list Z) (i : Z) :
  scan i (a :: b :: t)
  = if (a =? HEAD1) && (b =? HEAD2) then i else scan (i + 1) (b :: t).
Proof. reflexivity. Qed.

Lemma scan_range (l : list Z) (i : Z) :
  scan i l = -1 \/ (i <= scan i l /\ scan i l - i + 2 <= Py.len l).
Proof.
  revert i; induction l as [|a l IH]; intros i; [left; reflexivity|].
  destruct l as [|b t]; [left; reflexivity|].
  rewrite scan_cons2. destruct ((a =? HEAD1) && (b =? HEAD2)).
  - right. rewrite !len_cons. pose proof (len_nonneg t). lia.
  - destruct (IH (i + 1)) as [H | H]; [left; exact H|].
    right. rewrite len_cons. lia.
Qed.

(** Where the scan stops there is a sync pair, and none starts before. *)
Lemma scan_first (l : list Z) (i : Z) :
  0 <= i -> 0 <= scan i l ->
  sync_at l (Z.to_nat (scan i l - i)) = true /\
  forall j, (j < Z.to_nat (scan i l - i))%nat -> sync_at l j = false.
Proof.
  revert i; induction l as [|a l IH]; intros i Hi H; [simpl in H; lia|].
  destruct l as [|b t]; [simpl in H; lia|].
  rewrite scan_cons2 in *. destruct ((a =? HEAD1) && (b =? HEAD2)) eqn:E.
  - replace (i - i) with 0 by lia. split; [exact E | intros j Hj; simpl in Hj; lia].
  - destruct (scan_range (b :: t) (i + 1)) as [Hs | Hs]; [lia|].
    destruct (IH (i + 1) ltac:(lia) H) as [IH1 IH2].
    replace (Z.to_nat (scan (i + 1) (b :: t) - i))
      with (S (Z.to_nat (scan (i + 1) (b :: t) - (i + 1)))) by lia.
    split; [exact IH1|].
    intros [|j] Hj; [exact E|]. apply IH2. lia.
Qed.

(** Without a sync pair the scan answers [-1]. *)
Lemma scan_none (l : list Z) (i : Z) :
  0 <= i -> scan i l = -1 -> forall j, sync_at l j = false.
Proof.
  revert i; induction l as [|a l IH]; intros i Hi H j.
  - unfold sync_at. destruct j; reflexivity.
  - destruct l as [|b t].
    + unfold sync_at. destruct j as [|[|j]]; reflexivity.
    + rewrite scan_cons2 in H.
      destruct ((a =? HEAD1) && (b =? HEAD2)) eqn:E; [lia|].
      destruct j as [|j]; [exact E|]. exact (IH (i + 1) ltac:(lia) H j).
Qed.

(** ** The frame decoder *)

(** A run of [decode] is its view: in particular the three header reads are
    in range and the only read that can raise is caught. *)
Lemma decode_run (self : CmdPacket) (raw : list Z) (w : World) :
  run (decode self raw) w = decode_view self raw w.
Proof.
  unfold decode, decode_view. rewrite find_head_scan. cbn [lift bind].
  destruct (Z.ltb_spec (scan 0 raw) 0) as [Hneg | Hpos]; [reflexivity|].
  destruct (Z.ltb_spec (Py.len raw - scan 0 raw) 6) as [Hshort | Hlong];
    [reflexivity|].
  rewrite !getitem_in_range by lia. cbn [lift bind].
  match goal with
  | |- context [Py.len raw <? ?b] =>
      destruct (Z.ltb_spec (Py.len raw) b) as [H2 | H2]; [reflexivity|]
  end.
  destruct (getitem_cases raw
              (scan 0 raw + 5 + nth (Z.to_nat (scan 0 raw + 4)) raw 0))
    as [[summ E] | E]; rewrite E; [|reflexivity].
  destruct (Z.land _ 255 =? summ); reflexivity.
Qed.

(** [decode] returns: 0, or -1 with the packet object as it was; the world
    changes by at most one printed line. *)
Lemma decode_returns (self : CmdPacket) (raw : list Z) (w : World) :
  exists ret self' w',
    run (decode self raw) w = (Ok (ret, self', raw), w') /\
    (ret = 0 \/ (ret = -1 /\ self' = self)) /\
    serial_rx w' = serial_rx w /\ serial_log w' = serial_log w /\
    write_lock_held w' = write_lock_held w.
Proof.
  rewrite decode_run. unfold decode_view.
  repeat match goal with
         | |- context [if ?c then _ else _] => destruct c
         | |- context [match ?o with Ok _ => _ | Raise _ => _ end] => destruct o
         end;
    do 3 eexists; (split; [reflexivity|]); cbn; auto.
Qed.

(** The value part of a run of [decode] does not depend on the world. *)
Lemma decode_run_fst (self : CmdPacket) (raw : list Z) (w1 w2 : World) :
  fst (run (decode self raw) w1) = fst (run (decode self raw) w2).
Proof.
  rewrite !decode_run. unfold decode_view.
  repeat match goal with
         | |- context [if ?c then _ else _] => destruct c
         | |- context [match ?o with Ok _ => _ | Raise _ => _ end] => destruct o
         end; reflexivity.
Qed.

Lemma run_bind (A B : Type) (p : prog A) (f : A -> prog B) (w : World) :
  run (bind p f) w
  = match run p w with
    | (Ok a, w') => run (f a) w'
    | (Raise e, w') => (Raise e, w')
    end.
Proof.
  revert w; induction p as [a | e | X ev k IH]; intros w; cbn [bind run].
  - reflexivity.
  - reflexivity.
  - destruct (handle ev w) as [[x w']|]; [apply IH | reflexivity].
Qed.

Lemma land_255_mod (x : Z) : Z.land x 0xFF = x mod 256.
Proof. change 0xFF with (Z.ones 8). rewrite Z.land_ones by lia. reflexivity. Qed.

Lemma nth_skipn_add (l : list Z) (h k : nat) :
  nth (h + k) l 0 = nth k (skipn h l) 0.
Proof.
  revert l; induction h as [|h IH]; intros l; [reflexivity|].
  destruct l as [|x l]; simpl.
  - destruct k; reflexivity.
  - apply IH.
Qed.

(** For a non-negative address and command the constructor takes the
    [_save] branch, and [encode] lays out the frame of the wire format. *)
Lemma encode_packet_frame (address command : Z) (payload : list Z) :
  0 <= address -> 0 <= command ->
  encode_packet address command payload = Ret (frame address command payload).
Proof.
  intros Ha Hc. unfold encode_packet, CmdPacket__init__.
  destruct (Z.ltb_spec address 0); [lia|].
  destruct (Z.ltb_spec command 0); [lia|].
  cbn [orb bind]. unfold encode, _save, frame, checksum.
  cbn [ADDR CMD LEN DATA SUM]. rewrite land_255_mod. reflexivity.
Qed.

Lemma frame_length (address command : Z) (payload : list Z) :
  List.length (frame address command payload) = (6 + List.length payload)%nat.
Proof. unfold frame. cbn [app List.length]. rewrite length_app. simpl. lia. Qed.

(** Decoding a frame, whatever follows it in the buffer, succeeds and
    gives back its fields. *)
Lemma decode_frame (address command : Z) (payload rest : list Z)
    (self : CmdPacket) (w : World) :
  let raw := frame address command payload ++ rest in
  run (decode self raw) w
  = (Ok (0,
         mkCmdPacket address command (Py.len payload) payload
           (checksum address command payload),
         raw), w).
Proof.
  intros raw. rewrite decode_run. unfold decode_view.
  assert (Hlen : Py.len raw = 6 + Py.len payload + Py.len rest).
  { unfold raw, Py.len. rewrite length_app, frame_length. lia. }
  pose proof (len_nonneg payload) as Hp. pose proof (len_nonneg rest) as Hr.
  replace (scan 0 raw) with 0 by reflexivity.
  change (0 <? 0) with false. cbv iota.
  destruct (Z.ltb_spec (Py.len raw - 0) 6); [lia|].
  change (nth (Z.to_nat (0 + 2)) raw 0) with address.
  change (nth (Z.to_nat (0 + 3)) raw 0) with command.
  change (nth (Z.to_nat (0 + 4)) raw 0) with (Py.len payload).
  destruct (Z.ltb_spec (Py.len raw) (0 + 5 + Py.len payload + 1)); [lia|].
  assert (Hshape : skipn 5 raw
                   = payload ++ checksum address command payload :: rest).
  { unfold raw, frame. cbn [app skipn]. rewrite <- app_assoc. reflexivity. }
  rewrite getitem_in_range by lia.
  replace (Z.to_nat (0 + 5 + Py.len payload))
    with (5 + List.length payload)%nat by (unfold Py.len; lia).
  rewrite nth_skipn_add, Hshape, nth_middle.
  rewrite !slice_in_range by lia.
  replace (Z.to_nat (0 + 5 + Py.len payload - (0 + 5)))
    with (List.length payload) by (unfold Py.len; lia).
  replace (Z.to_nat (0 + 5)) with 5%nat by lia.
  rewrite Hshape, firstn_app, Nat.sub_diag, firstn_all. cbn [firstn].
  rewrite app_nil_r.
  replace (Z.to_nat (0 + 5 + Py.len payload - 0))
    with (5 + List.length payload)%nat by (unfold Py.len; lia).
  change (skipn (Z.to_nat 0) raw) with raw.
  assert (Hhead : firstn (5 + List.length payload) raw
                  = [0x57; 0xAB; address; command; Py.len payload] ++ payload).
  { unfold raw, frame. cbn [app firstn Nat.add]. repeat f_equal.
    rewrite <- app_assoc, firstn_app, Nat.sub_diag, firstn_all. cbn [firstn].
    apply app_nil_r. }
  rewrite Hhead, sum_app, !sum_cons, sum_nil, land_255_mod.
  replace (87 + (171 + (address + (command + (Py.len payload + 0))))
           + Py.sum payload)
    with (87 + 171 + address + command + Py.len payload + Py.sum payload)
    by lia.
  fold (checksum address command payload). rewrite Z.eqb_refl. reflexivity.
Qed.

Lemma valid_fields_inv (address command : Z) (payload : list Z) :
  valid_fields address command payload = true ->
  0 <= address <= 255 /\ 0 <= command <= 255 /\
  forallb Py.is_u8 payload = true /\ 0 <= Py.len payload <= 255.
Proof.
  unfold valid_fields, Py.is_u8, Py.len. intros H.
  repeat (apply andb_prop in H; destruct H as [H ?]).
  apply Nat.leb_le in H0. repeat split; try lia; assumption.
Qed.

Lemma frame_bytes (address command : Z) (payload : list Z) :
  valid_fields address command payload = true ->
  Py.bytes (frame address command payload) = Ok (frame address command payload).
Proof.
  intros H. destruct (valid_fields_inv _ _ _ H) as (Ha & Hc & Hp & Hl).
  unfold Py.bytes.
  assert (E : forallb Py.is_u8 (frame address command payload) = true).
  { unfold frame. rewrite !forallb_app, Hp. cbn [forallb].
    pose proof (Z.mod_pos_bound
                  (0x57 + 0xAB + address + command + Py.len payload
                   + Py.sum payload) 256 ltac:(lia)) as Hm.
    unfold checksum, Py.is_u8.
    repeat (apply andb_true_intro; split); try reflexivity;
      (apply Z.leb_le; lia). }
  rewrite E. reflexivity.
Qed.

Lemma frame_removelast (address command : Z) (payload : list Z) :
  removelast (frame address command payload)
  = [0x57; 0xAB; address; command; Py.len payload] ++ payload.
Proof. unfold frame. rewrite app_assoc. apply removelast_last. Qed.

Lemma decode_result_frame (address command : Z) (payload rest : list Z) :
  decode_result (frame address command payload ++ rest)
  = Decoded (mkCmdPacket address command (Py.len payload) payload
               (checksum address command payload)).
Proof. unfold decode_result. rewrite decode_frame. reflexivity. Qed.

(** ** C1  Round trip *)

(** C1.  For every address and command in 0-255 and every payload of at
    most 255 bytes, [CmdPacket(address, command, payload).encode()] is a list
    of bytes, and decoding it (into any packet object, and in particular into
    a fresh one) returns 0 and sets the fields to the original address,
    command and payload, with [LEN] the payload length and [SUM] the sum of
    the encoded bytes before the checksum byte, taken [& 0xFF]. *)
Theorem encode_decode_roundtrip (address command : Z) (payload : list Z) :
  valid_fields address command payload = true ->
  exists raw,
    encode_packet address command payload = Ret raw /\
    Py.bytes raw = Ok raw /\
    let decoded_packet :=
      mkCmdPacket address command (Py.len payload) payload
        (Z.land (Py.sum (removelast raw)) 0xFF) in
    (forall self w,
       run (decode self raw) w = (Ok (0, decoded_packet, raw), w)) /\
    decode_result raw = Decoded decoded_packet.
Proof.
  intros H. destruct (valid_fields_inv _ _ _ H) as (Ha & Hc & Hp & Hl).
  exists (frame address command payload).
  assert (Hsum : Z.land (Py.sum (removelast (frame address command payload)))
                   0xFF = checksum address command payload).
  { rewrite frame_removelast, sum_app, !sum_cons, sum_nil, land_255_mod.
    unfold checksum. f_equal. lia. }
  split; [apply encode_packet_frame; lia|].
  split; [apply frame_bytes; exact H|].
  cbv zeta. rewrite Hsum. split.
  - intros self w.
    pose proof (decode_frame address command payload [] self w) as D.
    cbv zeta in D. rewrite app_nil_r in D. exact D.
  - pose proof (decode_result_frame address command payload []) as D.
    rewrite app_nil_r in D. exact D.
Qed.

Lemma encode_decode_roundtrip_witness :
  valid_fields 0x00 0x02 [0x02; 0; 0; 0; 0x04; 0; 0; 0] = true /\
  exists raw,
    encode_packet 0x00 0x02 [0x02; 0; 0; 0; 0x04; 0; 0; 0] = Ret raw /\
    Py.bytes raw = Ok raw /\
    let decoded_packet :=
      mkCmdPacket 0x00 0x02 (Py.len [0x02; 0; 0; 0; 0x04; 0; 0; 0])
        [0x02; 0; 0; 0; 0x04; 0; 0; 0]
        (Z.land (Py.sum (removelast raw)) 0xFF) in
    (forall self w,
       run (decode self raw) w = (Ok (0, decoded_packet, raw), w)) /\
    decode_result raw = Decoded decoded_packet.
Proof.
  split; [reflexivity|].
  apply (encode_decode_roundtrip 0x00 0x02 [0x02; 0; 0; 0; 0x04; 0; 0; 0]).
  reflexivity.
Defined.

(** The round trip on the keyboard report above, evaluated. *)
Example roundtrip_keyboard_report :
  decode_result [0x57; 0xAB; 0x00; 0x02; 8; 0x02; 0; 0; 0; 0x04; 0; 0; 0; 0x12]
  = Decoded (mkCmdPacket 0x00 0x02 8 [0x02; 0; 0; 0; 0x04; 0; 0; 0] 0x12).
Proof. reflexivity. Qed.

(** ** C2  The wire format *)

(** C2, the general part.  For every address and command in 0-255 and
    every payload of at most 255 elements,
    [CmdPacket(address, command, payload).encode()] is
    [[0x57, 0xAB, address, command, len(payload), payload..., checksum]] with
    [checksum = (0x57 + 0xAB + address + command + len(payload) +
    sum(payload)) mod 256]; and the frame for address 0x00, command 0x01 and
    an empty payload is [[0x57, 0xAB, 0x00, 0x01, 0x00, 0x03]]: the sum
    [0x57 + 0xAB + 0 + 1 + 0] is [0x103], not [0x158]. *)
Theorem encode_wire_format (address command : Z) (payload : list Z) :
  Py.is_u8 address = true -> Py.is_u8 command = true ->
  (List.length payload <= 255)%nat ->
  encode_packet address command payload
  = Ret ([0x57; 0xAB; address; command; Py.len payload] ++ payload ++
         [(0x57 + 0xAB + address + command + Py.len payload + Py.sum payload)
            mod 256])
  /\ encode_packet 0x00 0x01 [] = Ret [0x57; 0xAB; 0x00; 0x01; 0x00; 0x03].
Proof.
  unfold Py.is_u8. intros Ha Hc _.
  apply andb_prop in Ha; destruct Ha as [Ha _]; apply Z.leb_le in Ha.
  apply andb_prop in Hc; destruct Hc as [Hc _]; apply Z.leb_le in Hc.
  split; [|reflexivity].
  rewrite encode_packet_frame by assumption. reflexivity.
Qed.

Lemma encode_wire_format_witness :
  Py.is_u8 0x00 = true /\ Py.is_u8 0x05 = true /\
  (List.length [0x01; 0; 0xFF; 0x02; 0]%Z <= 255)%nat /\
  (encode_packet 0x00 0x05 [0x01; 0; 0xFF; 0x02; 0]
   = Ret ([0x57; 0xAB; 0x00; 0x05; Py.len [0x01; 0; 0xFF; 0x02; 0]]
          ++ [0x01; 0; 0xFF; 0x02; 0] ++
          [(0x57 + 0xAB + 0x00 + 0x05 + Py.len [0x01; 0; 0xFF; 0x02; 0]
            + Py.sum [0x01; 0; 0xFF; 0x02; 0]) mod 256])
   /\ encode_packet 0x00 0x01 [] = Ret [0x57; 0xAB; 0x00; 0x01; 0x00; 0x03]).
Proof.
  split; [reflexivity|]. split; [reflexivity|]. split; [simpl; lia|].
  apply (encode_wire_format 0x00 0x05 [0x01; 0; 0xFF; 0x02; 0]);
    [reflexivity | reflexivity | simpl; lia].
Defined.

(** C2 as stated fails on its concrete vector: the frame for address 0x00,
    command 0x01 and an empty payload does not end in 0x58. *)
Lemma encode_get_info_not_0x58 :
  encode_packet 0x00 0x01 [] <> Ret [0x57; 0xAB; 0x00; 0x01; 0x00; 0x58].
Proof. intros H. vm_compute in H. discriminate H. Qed.

(** A buffer without a sync pair fails the header scan, and only such a
    buffer does. *)
Lemma decode_header_not_found (raw : list Z) :
  decode_result raw = Failed HeaderNotFound
  <-> forall j, sync_at raw j = false.
Proof.
  unfold decode_result. rewrite decode_run. unfold decode_view.
  destruct (Z.ltb_spec (scan 0 raw) 0) as [Hneg | Hpos].
  - split; [intros _ | reflexivity].
    destruct (scan_range raw 0) as [Hs | Hs]; [|lia].
    exact (scan_none raw 0 ltac:(lia) Hs).
  - split.
    + intros H. exfalso.
      repeat match type of H with
             | context [if ?c then _ else _] => destruct c
             | context [match ?o with Ok _ => _ | Raise _ => _ end] =>
                 destruct o
             end; discriminate H.
    + intros H. destruct (scan_first raw 0 ltac:(lia) Hpos) as [Hs _].
      rewrite H in Hs. discriminate Hs.
Qed.

(** ** C6  The decoder is total and leaves its input alone *)

(** C6.  For every list of integers [raw] (bytes or not, well-formed or
    not), every packet object and every world, [decode] returns (it does not
    raise), the list [raw] is as it was, and the integer returned is 0, or
    -1 with the packet object unchanged. *)
Theorem decode_total_input_unchanged (self : CmdPacket) (raw : list Z)
    (w : World) :
  exists ret self' w',
    run (decode self raw) w = (Ok (ret, self', raw), w') /\
    (ret = 0 \/ (ret = -1 /\ self' = self)).
Proof.
  destruct (decode_returns self raw w) as (ret & self' & w' & E & Hret & _).
  exists ret, self', w'. split; assumption.
Qed.

(** ** C3  Strict prefixes of a frame *)

Lemma firstn_frame_6 (address command : Z) (payload : list Z) (m : nat) :
  (m < List.length payload)%nat ->
  firstn (6 + m) (frame address command payload)
  = [0x57; 0xAB; address; command; Py.len payload] ++ firstn (S m) payload.
Proof.
  intros Hm. unfold frame. cbn [app].
  change (6 + m)%nat with (S (S (S (S (S (S m)))))).
  do 5 rewrite firstn_cons.
  rewrite firstn_app.
  replace (S m - List.length payload)%nat with 0%nat by lia.
  rewrite firstn_O, app_nil_r. reflexivity.
Qed.

(** C3, amended.  For every well-formed frame and every strict prefix of
    it, [decode] fails: with [Truncated] (a length check) when the prefix
    has at least 2 bytes, with [HeaderNotFound] (the header scan) when it
    has 0 or 1 byte; it never succeeds and never raises. *)
Theorem decode_strict_prefix (address command : Z) (payload : list Z)
    (n : nat) :
  valid_fields address command payload = true ->
  (n < List.length (frame address command payload))%nat ->
  encode_packet address command payload
  = Ret (frame address command payload) /\
  decode_result (firstn n (frame address command payload))
  = Failed (if (n <? 2)%nat then HeaderNotFound else Truncated).
Proof.
  intros H Hn. destruct (valid_fields_inv _ _ _ H) as (Ha & Hc & Hp & Hl).
  split; [apply encode_packet_frame; lia|].
  rewrite frame_length in Hn.
  destruct n as [|[|[|[|[|[|m]]]]]]; try reflexivity.
  change (S (S (S (S (S (S m)))))) with (6 + m)%nat in *.
  rewrite firstn_frame_6 by lia.
  unfold decode_result. rewrite decode_run. unfold decode_view.
  set (raw := [0x57; 0xAB; address; command; Py.len payload]
                ++ firstn (S m) payload).
  assert (Hlen : Py.len raw = 6 + Z.of_nat m).
  { unfold raw, Py.len. rewrite length_app, length_firstn.
    cbn [List.length]. lia. }
  replace (scan 0 raw) with 0 by reflexivity.
  change (0 <? 0) with false. cbv iota.
  destruct (Z.ltb_spec (Py.len raw - 0) 6); [lia|].
  change (nth (Z.to_nat (0 + 4)) raw 0) with (Py.len payload).
  destruct (Z.ltb_spec (Py.len raw) (0 + 5 + Py.len payload + 1));
    [reflexivity | unfold Py.len in *; lia].
Qed.

Lemma decode_strict_prefix_witness :
  valid_fields 0x00 0x04 [0x02; 0; 0; 8; 0; 8; 0] = true /\
  (9 < List.length (frame 0x00 0x04 [0x02; 0; 0; 8; 0; 8; 0]%Z))%nat /\
  (encode_packet 0x00 0x04 [0x02; 0; 0; 8; 0; 8; 0]
   = Ret (frame 0x00 0x04 [0x02; 0; 0; 8; 0; 8; 0]) /\
   decode_result (firstn 9 (frame 0x00 0x04 [0x02; 0; 0; 8; 0; 8; 0]))
   = Failed (if (9 <? 2)%nat then HeaderNotFound else Truncated)).
Proof.
  split; [reflexivity|]. split; [simpl; lia|].
  apply (decode_strict_prefix 0x00 0x04 [0x02; 0; 0; 8; 0; 8; 0] 9);
    [reflexivity | simpl; lia].
Defined.

(** C3 as stated fails on the empty prefix (and on the one-byte prefix):
    the header scan fails first, and the failure is [HeaderNotFound]. *)
Lemma decode_short_prefix_not_truncated :
  ~ (forall (address command : Z) (payload : list Z) (n : nat),
       valid_fields address command payload = true ->
       (n < List.length (frame address command payload))%nat ->
       decode_result (firstn n (frame address command payload))
       = Failed Truncated).
Proof.
  intros H.
  specialize (H 0x00 0x01 [] 0%nat eq_refl ltac:(simpl; lia)).
  vm_compute in H. discriminate H.
Qed.

(** ** C9  The decoder locks onto the first sync pair *)

Lemma nth_u8 (l : list Z) (k : nat) :
  forallb Py.is_u8 l = true -> (k < List.length l)%nat ->
  0 <= nth k l 0 <= 255.
Proof.
  intros Hl Hk. rewrite forallb_forall in Hl.
  specialize (Hl (nth k l 0) (nth_In l 0 Hk)).
  unfold Py.is_u8 in Hl. apply andb_prop in Hl. destruct Hl as [H1 H2].
  apply Z.leb_le in H1, H2. lia.
Qed.

Lemma sync_at_skipn (l : list Z) (h : nat) :
  sync_at l h
  = match skipn h l with
    | a :: b :: _ => (a =? 0x57) && (b =? 0xAB)
    | _ => false
    end.
Proof.
  revert l; induction h as [|h IH]; intros l.
  - destruct l as [|a [|b t]]; reflexivity.
  - destruct l as [|x l]; [reflexivity|]. exact (IH l).
Qed.

(** The shape of a buffer on which [decode] succeeds: the bytes from the
    header index on are a frame. *)
Lemma decode_success_shape (raw : list Z) (p : CmdPacket) :
  forallb Py.is_u8 raw = true ->
  decode_result raw = Decoded p ->
  0 <= scan 0 raw /\
  exists post,
    skipn (Z.to_nat (scan 0 raw)) raw
    = frame (ADDR p) (CMD p) (DATA p) ++ post /\
    LEN p = Py.len (DATA p) /\
    SUM p = checksum (ADDR p) (CMD p) (DATA p).
Proof.
  intros Hbytes Hdec. unfold decode_result in Hdec.
  rewrite decode_run in Hdec. unfold decode_view in Hdec. cbv zeta in Hdec.
  set (hi := scan 0 raw) in *.
  destruct (Z.ltb_spec hi 0) as [Hneg | Hpos]; [discriminate Hdec|].
  destruct (Z.ltb_spec (Py.len raw - hi) 6) as [Hshort | Hlong];
    [discriminate Hdec|].
  split; [exact Hpos|].
  set (h := Z.to_nat hi) in *.
  assert (Hh : hi = Z.of_nat h) by (unfold h; lia).
  assert (Hraw : Z.of_nat (List.length raw) = Py.len raw) by reflexivity.
  replace (Z.to_nat (hi + 2)) with (h + 2)%nat in Hdec by lia.
  replace (Z.to_nat (hi + 3)) with (h + 3)%nat in Hdec by lia.
  replace (Z.to_nat (hi + 4)) with (h + 4)%nat in Hdec by lia.
  pose proof (nth_u8 raw (h + 4) Hbytes ltac:(lia)) as HL.
  rewrite !nth_skipn_add in Hdec. rewrite nth_skipn_add in HL.
  pose proof (length_skipn h raw) as Htail.
  pose proof (scan_first raw 0 ltac:(lia) Hpos) as [Hsync _].
  replace (Z.to_nat (scan 0 raw - 0)) with h in Hsync by (unfold h, hi; lia).
  rewrite sync_at_skipn in Hsync.
  destruct (skipn h raw) as [|x0 [|x1 [|x2 [|x3 [|x4 rest]]]]] eqn:Etail;
    cbn [List.length] in Htail; try lia.
  cbn [nth Nat.add] in Hdec, HL.
  apply andb_prop in Hsync. destruct Hsync as [E0 E1].
  apply Z.eqb_eq in E0, E1. subst x0 x1.
  set (l := Z.to_nat x4) in *.
  assert (Hx4 : x4 = Z.of_nat l) by (unfold l; lia).
  destruct (Z.ltb_spec (Py.len raw) (hi + 5 + x4 + 1)) as [H2 | H2];
    [discriminate Hdec|].
  rewrite getitem_in_range in Hdec by lia.
  replace (Z.to_nat (hi + 5 + x4)) with (h + (5 + l))%nat in Hdec by lia.
  rewrite nth_skipn_add, Etail in Hdec.
  change (nth (5 + l) (0x57 :: 0xAB :: x2 :: x3 :: x4 :: rest) 0)
    with (nth l rest 0) in Hdec.
  rewrite !slice_in_range in Hdec by lia.
  replace (Z.to_nat (hi + 5 + x4 - hi)) with (5 + l)%nat in Hdec by lia.
  replace (Z.to_nat (hi + 5 + x4 - (hi + 5))) with l in Hdec by lia.
  replace (Z.to_nat (hi + 5)) with (5 + h)%nat in Hdec by lia.
  fold h in Hdec.
  rewrite <- skipn_skipn, Etail in Hdec.
  change (skipn 5 (0x57 :: 0xAB :: x2 :: x3 :: x4 :: rest)) with rest in Hdec.
  change (firstn (5 + l) (0x57 :: 0xAB :: x2 :: x3 :: x4 :: rest))
    with ([0x57; 0xAB; x2; x3; x4] ++ firstn l rest) in Hdec.
  rewrite sum_app, !sum_cons, sum_nil, land_255_mod in Hdec.
  destruct (Z.eqb_spec
              ((87 + (171 + (x2 + (x3 + (x4 + 0)))) + Py.sum (firstn l rest))
                 mod 256)
              (nth l rest 0)) as [Esum | Esum]; [|discriminate Hdec].
  change (0 =? 0) with true in Hdec. cbv iota in Hdec.
  injection Hdec as Hp. subst p. cbn [ADDR CMD DATA LEN SUM].
  assert (Hrest : (l < List.length rest)%nat) by lia.
  assert (Hlen : Py.len (firstn l rest) = x4).
  { unfold Py.len. rewrite length_firstn. lia. }
  exists (skipn (S l) rest).
  assert (Hck : checksum x2 x3 (firstn l rest) = nth l rest 0).
  { unfold checksum. rewrite Hlen, <- Esum. f_equal. lia. }
  split; [|split; [symmetry; exact Hlen | symmetry; exact Hck]].
  unfold frame. rewrite Hlen, Hck. cbn [app]. do 5 f_equal.
  rewrite <- app_assoc. cbn [app].
  rewrite <- (firstn_skipn l rest) at 1. f_equal.
  destruct (skipn l rest) as [|c post] eqn:E.
  - pose proof (length_skipn l rest) as Hs. rewrite E in Hs.
    cbn [List.length] in Hs. lia.
  - destruct (skipn_cons_nth _ _ _ _ E) as (_ & Hc & Hpost).
    rewrite Hc, Hpost. reflexivity.
Qed.

Lemma frame_bytes_inv (address command : Z) (payload : list Z) :
  forallb Py.is_u8 (frame address command payload) = true ->
  valid_fields address command payload = true.
Proof.
  unfold frame, valid_fields. cbn [app forallb]. rewrite forallb_app.
  intros H. repeat (apply andb_prop in H; destruct H as [? H]).
  match goal with
  | Ha : Py.is_u8 address = true, Hc : Py.is_u8 command = true,
    Hp : forallb Py.is_u8 payload = true,
    Hl : Py.is_u8 (Py.len payload) = true |- _ =>
      rewrite Ha, Hc, Hp; cbn [andb];
      unfold Py.is_u8, Py.len in Hl; apply andb_prop in Hl;
      destruct Hl as [_ Hl]; apply Z.leb_le in Hl
  end.
  apply Nat.leb_le. lia.
Qed.

(** C9.  On a buffer of bytes, [decode] succeeds only if the first sync
    pair [0x57, 0xAB] of the buffer starts a frame: the buffer is then some
    bytes without a sync pair starting in them, the frame of the decoded
    address, command and payload (well-formed fields, with the decoded length
    and checksum), and whatever follows.  And there is a buffer made of garbage holding a sync
    pair, followed by a complete valid frame, on which [decode] fails, although
    the frame alone decodes. *)
Theorem decode_first_sync_only (raw : list Z) (p : CmdPacket) :
  forallb Py.is_u8 raw = true ->
  decode_result raw = Decoded p ->
  (exists pre post,
     raw = pre ++ frame (ADDR p) (CMD p) (DATA p) ++ post /\
     sync_at raw (List.length pre) = true /\
     (forall j, (j < List.length pre)%nat -> sync_at raw j = false) /\
     valid_fields (ADDR p) (CMD p) (DATA p) = true /\
     LEN p = Py.len (DATA p) /\
     SUM p = checksum (ADDR p) (CMD p) (DATA p))
  /\
  (exists garbage address command payload,
     sync_at garbage 0 = true /\
     valid_fields address command payload = true /\
     decode_result (frame address command payload)
     = Decoded (mkCmdPacket address command (Py.len payload) payload
                  (checksum address command payload)) /\
     decode_result (garbage ++ frame address command payload)
     = Failed ChecksumMismatch).
Proof.
  intros Hbytes Hdec. split.
  - destruct (decode_success_shape raw p Hbytes Hdec)
      as (Hpos & post & Eshape & HLEN & HSUM).
    pose proof (scan_first raw 0 ltac:(lia) Hpos) as [Hsync Hfirst].
    replace (scan 0 raw - 0) with (scan 0 raw) in * by lia.
    destruct (scan_range raw 0) as [Hs | Hs]; [lia|].
    set (h := Z.to_nat (scan 0 raw)) in *.
    assert (Hpre : List.length (firstn h raw) = h).
    { rewrite length_firstn. unfold Py.len in Hs. lia. }
    assert (Eraw : raw = firstn h raw
                         ++ frame (ADDR p) (CMD p) (DATA p) ++ post)
      by (rewrite <- Eshape; symmetry; apply firstn_skipn).
    exists (firstn h raw), post. rewrite Hpre.
    split; [exact Eraw|]. split; [exact Hsync|]. split; [exact Hfirst|].
    split; [|split; assumption].
    rewrite Eraw, !forallb_app in Hbytes.
    apply andb_prop in Hbytes. destruct Hbytes as [_ Hbytes].
    apply andb_prop in Hbytes. destruct Hbytes as [Hframe _].
    apply frame_bytes_inv. exact Hframe.
  - exists [0x57; 0xAB], 0x00, 0x01, [].
    repeat split; reflexivity.
Qed.

Lemma decode_first_sync_only_witness :
  let raw := [0x00; 0x57; 0xAB; 0x00; 0x81; 0x03; 0x31; 0x01; 0x00; 0xB8] in
  let p := mkCmdPacket 0x00 0x81 0x03 [0x31; 0x01; 0x00] 0xB8 in
  forallb Py.is_u8 raw = true /\
  decode_result raw = Decoded p /\
  ((exists pre post,
      raw = pre ++ frame (ADDR p) (CMD p) (DATA p) ++ post /\
      sync_at raw (List.length pre) = true /\
      (forall j, (j < List.length pre)%nat -> sync_at raw j = false) /\
      valid_fields (ADDR p) (CMD p) (DATA p) = true /\
      LEN p = Py.len (DATA p) /\
      SUM p = checksum (ADDR p) (CMD p) (DATA p))
   /\
   (exists garbage address command payload,
      sync_at garbage 0 = true /\
      valid_fields address command payload = true /\
      decode_result (frame address command payload)
      = Decoded (mkCmdPacket address command (Py.len payload) payload
                   (checksum address command payload)) /\
      decode_result (garbage ++ frame address command payload)
      = Failed ChecksumMismatch)).
Proof.
  cbv zeta. split; [reflexivity|]. split; [reflexivity|].
  apply (decode_first_sync_only
           [0x00; 0x57; 0xAB; 0x00; 0x81; 0x03; 0x31; 0x01; 0x00; 0xB8]
           (mkCmdPacket 0x00 0x81 0x03 [0x31; 0x01; 0x00] 0xB8));
    reflexivity.
Defined.

(** The buffer of C9, evaluated: the sync pair in the garbage is taken for
    the header, the bytes [0x57, 0xAB] of the real frame for address and
    command, and the checksum differs. *)
Example decode_no_resync :
  decode_result [0x57; 0xAB; 0x57; 0xAB; 0x00; 0x01; 0x00; 0x03]
  = Failed ChecksumMismatch
  /\ decode_result [0x57; 0xAB; 0x00; 0x01; 0x00; 0x03]
     = Decoded (mkCmdPacket 0x00 0x01 0x00 [] 0x03).
Proof. split; reflexivity. Qed.

(** ** C5  Device information *)

Lemma float_of_int_version (e : Z) :
  0 <= e <= 207 -> exists f, float_of_int e = Ok f.
Proof.
  intros He.
  assert (Hall : forallb
                   (fun e => match float_of_int e with
                             | Ok _ => true
                             | Raise _ => false
                             end) (Py.range 208) = true)
    by (vm_compute; reflexivity).
  rewrite forallb_forall in Hall.
  assert (Hin : In e (Py.range 208)).
  { unfold Py.range. replace e with (Z.of_nat (Z.to_nat e)) by lia.
    apply in_map, in_seq. lia. }
  specialize (Hall e Hin).
  destruct (float_of_int e) as [f|]; [eauto | discriminate].
Qed.

Lemma float_of_int_raises (n : Z) (e : exn) :
  float_of_int n = Raise e -> e = OverflowError.
Proof.
  unfold float_of_int.
  destruct (binary_normalize float_prec float_emax n 0 false);
    intros H; inversion H; reflexivity.
Qed.

Lemma get_bit_literal (value bit : Z) :
  0 <= bit -> get_bit value bit = Ok (Z.land (Z.shiftr value bit) 1).
Proof.
  intros Hb. unfold get_bit, Py.rshift.
  destruct (Z.ltb_spec bit 0); [lia | reflexivity].
Qed.

Lemma land_1_testbit (value bit : Z) :
  0 <= bit -> (Z.land (Z.shiftr value bit) 1 =? 1) = Z.testbit value bit.
Proof.
  intros Hb. change 1 with (Z.ones 1) at 1.
  rewrite Z.land_ones by lia. change (2 ^ 1) with 2.
  rewrite <- Z.bit0_mod, Z.shiftr_spec by lia. rewrite Z.add_0_l.
  destruct (Z.testbit value bit); reflexivity.
Qed.

(** C5.  For every payload of at least 3 elements, [InfoPacket(data)]
    raises the version error exactly when [data[0] < 0x30]; when the payload
    is made of bytes and [data[0] >= 0x30] it returns, with [IS_CONNECTED]
    true iff [data[1]] is not 0 and the three locks the bits 0, 1 and 2 of
    [data[2]].  The payload [[0x30, 0x01, 0x00]] gives ["V1.0"], connected,
    no lock; a payload that starts with [0x2F] raises the version error. *)
Theorem info_packet_version (data : list Z) :
  (3 <= List.length data)%nat ->
  (InfoPacket__init__ data = Raise (ValueError "version error")
   <-> nth 0 data 0 < 0x30) /\
  (forallb Py.is_u8 data = true -> 0x30 <= nth 0 data 0 ->
   exists version : string,
     InfoPacket__init__ data
     = Ok (mkInfoPacket version (negb (nth 1 data 0 =? 0))
             (Z.testbit (nth 2 data 0) 0) (Z.testbit (nth 2 data 0) 1)
             (Z.testbit (nth 2 data 0) 2))) /\
  InfoPacket__init__ [0x30; 0x01; 0x00]
  = Ok (mkInfoPacket "V1.0" true false false false) /\
  (forall rest, InfoPacket__init__ (0x2F :: rest)
                = Raise (ValueError "version error")).
Proof.
  intros Hlen.
  destruct data as [|d0 [|d1 [|d2 rest]]]; cbn [List.length] in Hlen; try lia.
  cbn [nth].
  assert (Hrun : InfoPacket__init__ (d0 :: d1 :: d2 :: rest)
                 = if d0 <? 0x30 then Raise (ValueError "version error")
                   else
                     (fe <~ float_of_int (d0 - 0x30) ;;
                      Ok (mkInfoPacket
                            ("V" ++ format_1f
                               (SFadd float_prec float_emax (float_lit 1)
                                  (SFdiv float_prec float_emax fe
                                     (float_lit 10))))%string
                            (negb (d1 =? 0))
                            (Z.testbit d2 0) (Z.testbit d2 1)
                            (Z.testbit d2 2)))%outcome).
  { unfold InfoPacket__init__.
    pose proof (len_nonneg rest) as Hr.
    rewrite !getitem_in_range by (rewrite !len_cons; lia).
    cbn [Z.to_nat Pos.to_nat Pos.iter_op Nat.add nth obind].
    destruct (d0 <? 0x30); [reflexivity|].
    destruct (float_of_int (d0 - 0x30)); [|reflexivity]. cbn [obind].
    rewrite !get_bit_literal by lia. cbn [obind].
    rewrite !land_1_testbit by lia. reflexivity. }
  split; [split | split; [|split]].
  - rewrite Hrun. destruct (Z.ltb_spec d0 0x30); [trivial|].
    destruct (float_of_int (d0 - 0x30)) as [f | e] eqn:Ef; [discriminate|].
    rewrite (float_of_int_raises _ _ Ef). discriminate.
  - intros Hd. rewrite Hrun. destruct (Z.ltb_spec d0 0x30); [reflexivity | lia].
  - intros Hbytes Hd0. rewrite Hrun.
    pose proof (nth_u8 _ 0 Hbytes ltac:(simpl; lia)) as Hb. cbn [nth] in Hb.
    destruct (Z.ltb_spec d0 0x30); [lia|].
    destruct (float_of_int_version (d0 - 0x30) ltac:(lia)) as [f Ef].
    rewrite Ef. cbn [obind]. eexists. reflexivity.
  - vm_compute. reflexivity.
  - intros rest'. reflexivity.
Qed.

Lemma info_packet_version_witness :
  (3 <= List.length [0x31; 0x00; 0x05]%Z)%nat /\
  ((InfoPacket__init__ [0x31; 0x00; 0x05] = Raise (ValueError "version error")
    <-> nth 0 [0x31; 0x00; 0x05] 0 < 0x30) /\
   (forallb Py.is_u8 [0x31; 0x00; 0x05] = true ->
    0x30 <= nth 0 [0x31; 0x00; 0x05] 0 ->
    exists version : string,
      InfoPacket__init__ [0x31; 0x00; 0x05]
      = Ok (mkInfoPacket version (negb (nth 1 [0x31; 0x00; 0x05] 0 =? 0))
              (Z.testbit (nth 2 [0x31; 0x00; 0x05] 0) 0)
              (Z.testbit (nth 2 [0x31; 0x00; 0x05] 0) 1)
              (Z.testbit (nth 2 [0x31; 0x00; 0x05] 0) 2))) /\
   InfoPacket__init__ [0x30; 0x01; 0x00]
   = Ok (mkInfoPacket "V1.0" true false false false) /\
   (forall rest, InfoPacket__init__ (0x2F :: rest)
                 = Raise (ValueError "version error"))).
Proof.
  split; [simpl; lia|].
  apply (info_packet_version [0x31; 0x00; 0x05]). simpl; lia.
Defined.

(** A payload with version byte 0x31, evaluated. *)
Example info_packet_v11 :
  InfoPacket__init__ [0x31; 0x00; 0x05]
  = Ok (mkInfoPacket "V1.1" false true false true).
Proof. vm_compute. reflexivity. Qed.

(** ** The controller: what a send method puts on the wire *)

(** The constructor returns, and does not touch the serial port or the
    lock. *)
Lemma init_returns (address command : Z) (data : option (list Z)) (w : World) :
  exists p w',
    run (CmdPacket__init__ address command data) w = (Ok p, w') /\
    serial_rx w' = serial_rx w /\ serial_log w' = serial_log w /\
    write_lock_held w' = write_lock_held w.
Proof.
  unfold CmdPacket__init__.
  destruct ((address <? 0) || (command <? 0)).
  - rewrite run_bind.
    match goal with
    | |- context [run (decode ?s ?r) w] =>
        destruct (decode_returns s r w) as (ret & self' & w' & E & _ & H)
    end.
    rewrite E. cbn [run fst snd]. eauto.
  - cbn [run]. eauto 6.
Qed.

Lemma run_write_list (pkt : list Z) (w : World) :
  run (write_list pkt) w
  = if forallb Py.is_u8 pkt
    then (Ok tt, mkWorld (stdout w) (serial_rx w) (serial_log w ++ [Wrote pkt])
                         (write_lock_held w))
    else (Raise (ValueError "bytes must be in range(0, 256)"), w).
Proof.
  unfold write_list, Py.bytes. destruct (forallb Py.is_u8 pkt); reflexivity.
Qed.

(** The two statements that end every send method, [pkt = CmdPacket(addr,
    cmd, data).encode()] and [self.serial_port.write(bytes(pkt))], run as
    building the packet and writing it. *)
Lemma run_send_tail (address command : Z) (data : list Z) (w : World) :
  run (p <- CmdPacket__init__ address command (Some data) ;;
       let pkt := encode p in
       bs <- lift (Py.bytes pkt) ;;
       perform (SerialWrite bs))%prog w
  = run (pkt <- encode_packet address command data ;; write_list pkt)%prog w.
Proof.
  unfold encode_packet. rewrite !run_bind.
  destruct (run (CmdPacket__init__ address command (Some data)) w)
    as [[p | e] w']; reflexivity.
Qed.

(** Building a packet and writing it never raises [ZeroDivisionError]. *)
Lemma run_send_not_zero_division (address command : Z) (data : list Z)
    (w : World) :
  fst (run (pkt <- encode_packet address command data ;; write_list pkt)%prog w)
  <> Raise ZeroDivisionError.
Proof.
  unfold encode_packet. rewrite !run_bind.
  destruct (init_returns address command (Some data) w) as (p & w' & E & _).
  rewrite E. cbn [run]. rewrite run_write_list.
  destruct (forallb Py.is_u8 (encode p)); cbn [fst]; discriminate.
Qed.

(** ** C10  Relative mouse reports *)

(** C10.  [send_mouse_relative_data] sends the packet whose payload is
    [[0x01, key, x mod 256, y mod 256, scroll]]: [x] and [y] are reduced into
    0-255, [key] and [scroll] are passed as they are.  For the scroll argument
    -1 the list built holds -1, which is no byte: [bytes] raises [ValueError]
    and nothing is written to the serial port. *)
Theorem mouse_relative_payload_bytes (self : NanoKVM) (key x y scroll : Z)
    (w : World) :
  run (send_mouse_relative_data self key x y scroll) w
  = run (pkt <- encode_packet (addr self) (CmdEvent_value SEND_MS_REL_DATA)
                  [0x01; key; x mod 256; y mod 256; scroll] ;;
         write_list pkt)%prog w
  /\ 0 <= x mod 256 <= 255 /\ 0 <= y mod 256 <= 255
  /\ (exists negative_scroll pkt,
        negative_scroll < 0 /\
        encode_packet 0x00 (CmdEvent_value SEND_MS_REL_DATA)
          [0x01; 0; 0 mod 256; 0 mod 256; negative_scroll] = Ret pkt /\
        In negative_scroll pkt /\ Py.is_u8 negative_scroll = false /\
        run (send_mouse_relative_data (mkNanoKVM 0x00) 0 0 0 negative_scroll)
          world0
        = (Raise (ValueError "bytes must be in range(0, 256)"), world0)).
Proof.
  split; [|split; [|split]].
  - unfold send_mouse_relative_data, int_to_byte. cbv zeta.
    rewrite !land_255_mod. apply run_send_tail.
  - pose proof (Z.mod_pos_bound x 256 ltac:(lia)). lia.
  - pose proof (Z.mod_pos_bound y 256 ltac:(lia)). lia.
  - exists (-1), (frame 0x00 0x05 [0x01; 0; 0; 0; -1]).
    split; [lia|]. split; [reflexivity|].
    split; [simpl; tauto|]. split; reflexivity.
Qed.

(** ** C4  Absolute mouse reports *)

Lemma scaled_range (v dim : Z) : 0 <= v < dim -> 0 <= scaled v dim <= 4095.
Proof.
  intros H. unfold scaled. destruct (Z.eqb_spec dim 0); [lia|].
  split.
  - apply Z.div_pos; lia.
  - assert (v * 4096 / dim < 4096); [|lia].
    apply Z.div_lt_upper_bound; lia.
Qed.

(** C4, amended.  For every width, height, x and y (and key, scroll),
    [send_mouse_absolute_data] sends the packet whose payload holds, low
    byte first, [x_abs = (x * 4096) // width], or 0 when the width is 0, and
    the same for y; it never raises [ZeroDivisionError].  The scaled
    coordinate is in 0-4095 when [0 <= x < width] (and is 0 when the width is
    0); width 1920, height 1080, x 960, y 540 give 2048 and 2048. *)
Theorem mouse_absolute_scaling (self : NanoKVM)
    (key width height x y scroll : Z) (w : World) :
  run (send_mouse_absolute_data self key width height x y scroll) w
  = run (pkt <- encode_packet (addr self) (CmdEvent_value SEND_MS_ABS_DATA)
                  (absolute_payload key (scaled x width) (scaled y height)
                     scroll) ;;
         write_list pkt)%prog w
  /\ fst (run (send_mouse_absolute_data self key width height x y scroll) w)
     <> Raise ZeroDivisionError
  /\ (0 <= x < width -> 0 <= scaled x width <= 4095)
  /\ (0 <= y < height -> 0 <= scaled y height <= 4095)
  /\ scaled x 0 = 0 /\ scaled y 0 = 0
  /\ scaled 960 1920 = 2048 /\ scaled 540 1080 = 2048.
Proof.
  assert (E : run (send_mouse_absolute_data self key width height x y scroll) w
              = run (pkt <- encode_packet (addr self)
                              (CmdEvent_value SEND_MS_ABS_DATA)
                              (absolute_payload key (scaled x width)
                                 (scaled y height) scroll) ;;
                     write_list pkt)%prog w).
  { unfold send_mouse_absolute_data, scaled, Py.floordiv.
    destruct (width =? 0); destruct (height =? 0); cbn [lift bind];
      apply run_send_tail. }
  split; [exact E|]. split; [rewrite E; apply run_send_not_zero_division|].
  split; [apply scaled_range|]. split; [apply scaled_range|].
  repeat split; reflexivity.
Qed.

Lemma mouse_absolute_scaling_witness :
  0 <= 1919 < 1920 /\ 0 <= 0 < 1080 /\
  0 <= scaled 1919 1920 <= 4095 /\ 0 <= scaled 0 1080 <= 4095.
Proof.
  split; [lia|]. split; [lia|].
  destruct (mouse_absolute_scaling (mkNanoKVM 0x00) 0 1920 1080 1919 0 0 world0)
    as (_ & _ & Hx & Hy & _).
  split; [apply Hx; lia | apply Hy; lia].
Defined.

(** C4 as stated fails when the pointer is on or past the far edge, or
    before the origin: for width 1920 and x 1920 the frame sent carries
    4096, which no coordinate in 0-4095 encodes. *)
Lemma mouse_absolute_out_of_range :
  ~ (forall key width height x y scroll : Z,
       exists x_abs y_abs,
         0 <= x_abs <= 4095 /\ 0 <= y_abs <= 4095 /\
         run (send_mouse_absolute_data (mkNanoKVM 0x00)
                key width height x y scroll) world0
         = run (pkt <- encode_packet 0x00 (CmdEvent_value SEND_MS_ABS_DATA)
                         (absolute_payload key x_abs y_abs scroll) ;;
                write_list pkt)%prog world0).
Proof.
  intros H. destruct (H 0 1920 1080 1920 540 0) as (xa & ya & Hx & Hy & E).
  rewrite encode_packet_frame in E by (simpl; lia).
  cbn [bind] in E. rewrite run_write_list in E.
  assert (L : run (send_mouse_absolute_data (mkNanoKVM 0) 0 1920 1080 1920 540 0)
                world0
              = (Ok tt,
                 mkWorld [] [] [Wrote (frame 0 4 (absolute_payload 0 4096 2048 0))]
                   false)) by (vm_compute; reflexivity).
  rewrite L in E.
  destruct (forallb Py.is_u8 _) in E; [|discriminate E].
  injection E as _ Hhi _ _ _.
  rewrite land_255_mod, Z.shiftr_div_pow2 in Hhi by lia.
  change (2 ^ 8) with 256 in Hhi.
  assert (0 <= xa / 256 < 16)
    by (split; [apply Z.div_pos | apply Z.div_lt_upper_bound]; lia).
  rewrite Z.mod_small in Hhi by lia. lia.
Qed.

(** The frame of the counterexample, evaluated: the x field is [0x00, 0x10]. *)
Example mouse_absolute_far_edge :
  serial_log
    (snd (run (send_mouse_absolute_data (mkNanoKVM 0x00) 0 1920 1080 1920 540 0)
            world0))
  = [Wrote [0x57; 0xAB; 0x00; 0x04; 0x07;
            0x02; 0x00; 0x00; 0x10; 0x00; 0x08; 0x00; 0x27]].
Proof. vm_compute. reflexivity. Qed.

(** ** C7  get_info *)

Lemma run_lift (A : Type) (o : outcome A) (w : World) : run (lift o) w = (o, w).
Proof. destruct o; reflexivity. Qed.

(** [CmdPacket(-1, -1, raw)] runs [decode] on a fresh object and drops the
    integer it returns. *)
Lemma init_decode_run (raw : list Z) (w : World) :
  exists w',
    run (CmdPacket__init__ (-1) (-1) (Some raw)) w
    = (Ok (received_packet raw), w') /\
    serial_rx w' = serial_rx w /\ serial_log w' = serial_log w /\
    write_lock_held w' = write_lock_held w.
Proof.
  unfold CmdPacket__init__. cbn [Z.ltb Z.compare orb]. rewrite run_bind.
  fold zero_packet.
  destruct (decode_returns zero_packet raw w)
    as (ret & self' & w' & E & Hret & Hw).
  pose proof (decode_run_fst zero_packet raw w world0) as F.
  rewrite E in F. cbn [fst] in F.
  rewrite E. cbn [run fst snd]. exists w'. split; [|exact Hw].
  unfold received_packet, decode_result.
  destruct (run (decode zero_packet raw) world0) as [o w0].
  cbn [fst] in F. subst o.
  destruct Hret as [-> | [-> ->]].
  - reflexivity.
  - cbn [Z.eqb]. destruct (classify_failure (stdout w0)); reflexivity.
Qed.

Lemma init_save (address command : Z) (data : option (list Z)) :
  0 <= address -> 0 <= command ->
  CmdPacket__init__ address command data
  = Ret (_save zero_packet address command
           match data with None => [] | Some d => d end).
Proof.
  intros Ha Hc. unfold CmdPacket__init__.
  destruct (Z.ltb_spec address 0); [lia|].
  destruct (Z.ltb_spec command 0); [lia|]. reflexivity.
Qed.

Lemma encode_save (self : CmdPacket) (address command : Z) (data : list Z) :
  encode (_save self address command data) = frame address command data.
Proof.
  unfold encode, _save, frame, checksum. cbn [ADDR CMD LEN DATA SUM].
  rewrite land_255_mod. reflexivity.
Qed.

(** What a call of [get_info] amounts to: one write of the GET_INFO frame,
    one read of at most 14 bytes, and [InfoPacket] on the [DATA] of the
    packet object built from what was read. *)
Lemma get_info_run (self : NanoKVM) (w : World) :
  Py.is_u8 (addr self) = true ->
  exists w',
    run (get_info self) w
    = (InfoPacket__init__ (DATA (received_packet (firstn 14 (serial_rx w)))),
       w') /\
    serial_log w'
    = serial_log w ++ [Wrote (frame (addr self) 0x01 []);
                       DidRead 14 (firstn 14 (serial_rx w))] /\
    write_lock_held w' = write_lock_held w.
Proof.
  intros Haddr. unfold get_info.
  assert (Hvalid : valid_fields (addr self) 0x01 [] = true)
    by (unfold valid_fields; rewrite Haddr; reflexivity).
  destruct (valid_fields_inv _ _ _ Hvalid) as (Ha & _).
  rewrite (init_save (addr self) (CmdEvent_value GET_INFO) None)
    by (cbn [CmdEvent_value]; lia).
  cbn [bind CmdEvent_value]. rewrite encode_save.
  rewrite (frame_bytes _ _ _ Hvalid).
  cbn [lift bind perform print run handle
       stdout serial_rx serial_log write_lock_held].
  set (raw := firstn (Z.to_nat 14) (serial_rx w)).
  rewrite run_bind.
  match goal with
  | |- context [run (CmdPacket__init__ (-1) (-1) (Some raw)) ?w1] =>
      destruct (init_decode_run raw w1) as (w2 & E2 & Hrx2 & Hlog2 & Hlk2)
  end.
  rewrite E2. rewrite run_bind.
  destruct (decode_returns (received_packet raw) raw w2)
    as (ret & p' & w3 & E3 & _ & Hrx3 & Hlog3 & Hlk3).
  rewrite E3.
  cbn [fst snd bind print perform run handle
       stdout serial_rx serial_log write_lock_held].
  rewrite run_bind.
  match goal with
  | |- context [run (CmdPacket__init__ (-1) (-1) (Some raw)) ?w4] =>
      destruct (init_decode_run raw w4) as (w5 & E5 & Hrx5 & Hlog5 & Hlk5)
  end.
  rewrite E5, run_lift. exists w5. split; [reflexivity|].
  cbn [serial_log write_lock_held] in *.
  rewrite Hlog5, Hlog3, Hlog2, Hlk5, Hlk3, Hlk2, <- app_assoc.
  split; reflexivity.
Qed.

Lemma info_packet_old_version (d0 : Z) (rest : list Z) :
  d0 < 0x30 ->
  InfoPacket__init__ (d0 :: rest) = Raise (ValueError "version error").
Proof.
  intros H. unfold InfoPacket__init__.
  rewrite getitem_in_range
    by (rewrite len_cons; pose proof (len_nonneg rest); lia).
  cbn [Z.to_nat nth obind]. destruct (Z.ltb_spec d0 0x30); [reflexivity | lia].
Qed.

(** C7, amended.  With a byte for address, [get_info] writes the GET_INFO
    frame once and reads once (at most 14 bytes), whatever it reads: it does
    not retry.  When the bytes read decode as a frame, the result is that of
    [InfoPacket] on the payload, so a first payload byte below 0x30 reaches
    the caller as the version error.  When they do not, the -1 of [decode] is
    dropped and what reaches the caller is the [IndexError] of [InfoPacket]
    reading the empty [DATA] list. *)
Theorem get_info_errors (self : NanoKVM) (w : World) :
  Py.is_u8 (addr self) = true ->
  let raw := firstn 14 (serial_rx w) in
  let result := run (get_info self) w in
  serial_log (snd result)
  = serial_log w ++ [Wrote (frame (addr self) 0x01 []); DidRead 14 raw] /\
  (forall p, decode_result raw = Decoded p ->
             fst result = InfoPacket__init__ (DATA p)) /\
  (forall p d0 rest,
     decode_result raw = Decoded p -> DATA p = d0 :: rest -> d0 < 0x30 ->
     fst result = Raise (ValueError "version error")) /\
  (forall err, decode_result raw = Failed err -> fst result = Raise IndexError).
Proof.
  intros Haddr raw result.
  destruct (get_info_run self w Haddr) as (w' & E & Hlog & _).
  fold raw in E, Hlog. subst result. rewrite E. cbn [fst snd].
  split; [exact Hlog|]. unfold received_packet. repeat split.
  - intros p Hp. rewrite Hp. reflexivity.
  - intros p d0 rest Hp Hd H0. rewrite Hp, Hd.
    apply info_packet_old_version. exact H0.
  - intros err Herr. rewrite Herr. reflexivity.
Qed.

Lemma get_info_errors_witness :
  let self := mkNanoKVM 0x00 in
  let w := world_with_rx [0x57; 0xAB; 0x00; 0x81; 0x03; 0x2F; 0x01; 0x00; 0xB6] in
  Py.is_u8 (addr self) = true /\
  serial_log (snd (run (get_info self) w))
  = [Wrote [0x57; 0xAB; 0x00; 0x01; 0x00; 0x03];
     DidRead 14 [0x57; 0xAB; 0x00; 0x81; 0x03; 0x2F; 0x01; 0x00; 0xB6]] /\
  fst (run (get_info self) w) = Raise (ValueError "version error").
Proof.
  cbv zeta. split; [reflexivity|].
  destruct (get_info_errors (mkNanoKVM 0x00)
              (world_with_rx
                 [0x57; 0xAB; 0x00; 0x81; 0x03; 0x2F; 0x01; 0x00; 0xB6])
              eq_refl) as (Hlog & _ & Hversion & _).
  split; [exact Hlog|].
  apply (Hversion (mkCmdPacket 0x00 0x81 0x03 [0x2F; 0x01; 0x00] 0xB6)
           0x2F [0x01; 0x00]); [reflexivity | reflexivity | lia].
Defined.

(** C7 as stated fails for framing errors: the error that reaches the
    caller of [get_info] does not tell a response that fails frame decoding
    from one that decodes.  The empty response (a read that timed out) fails
    the header scan, the frame [57 AB 00 81 00 83] decodes, with an empty
    payload, and [get_info] raises the same [IndexError] on both. *)
Lemma get_info_framing_error_lost :
  ~ (forall (rx_bad rx_good : list Z) (err : DecodeError) (p : CmdPacket),
       decode_result (firstn 14 rx_bad) = Failed err ->
       decode_result (firstn 14 rx_good) = Decoded p ->
       fst (run (get_info (mkNanoKVM 0x00)) (world_with_rx rx_bad))
       <> fst (run (get_info (mkNanoKVM 0x00)) (world_with_rx rx_good))).
Proof.
  intros H.
  apply (H [] [0x57; 0xAB; 0x00; 0x81; 0x00; 0x83] HeaderNotFound
           (mkCmdPacket 0x00 0x81 0x00 [] 0x83));
    vm_compute; reflexivity.
Qed.

(** The two runs of the counterexample, and a checksum failure, evaluated. *)
Example get_info_on_bad_responses :
  fst (run (get_info (mkNanoKVM 0x00)) (world_with_rx [])) = Raise IndexError
  /\ fst (run (get_info (mkNanoKVM 0x00))
            (world_with_rx [0x57; 0xAB; 0x00; 0x81; 0x00; 0x83]))
     = Raise IndexError
  /\ fst (run (get_info (mkNanoKVM 0x00))
            (world_with_rx [0x57; 0xAB; 0x00; 0x81; 0x03; 0x30; 0x01; 0x00; 0x00]))
     = Raise IndexError
  /\ fst (run (get_info (mkNanoKVM 0x00))
            (world_with_rx [0x57; 0xAB; 0x00; 0x81; 0x03; 0x30; 0x01; 0x00; 0xB7]))
     = Ok (mkInfoPacket "V1.0" true false false false).
Proof. repeat split; vm_compute; reflexivity. Qed.

(** A call of [get_info], with what it leaves in the receive buffer. *)
Lemma get_info_run_rx (self : NanoKVM) (w : World) :
  Py.is_u8 (addr self) = true ->
  exists w',
    run (get_info self) w
    = (InfoPacket__init__ (DATA (received_packet (firstn 14 (serial_rx w)))),
       w') /\
    serial_rx w' = skipn 14 (serial_rx w) /\
    serial_log w'
    = serial_log w ++ [Wrote (frame (addr self) 0x01 []);
                       DidRead 14 (firstn 14 (serial_rx w))].
Proof.
  intros Haddr. unfold get_info.
  assert (Hvalid : valid_fields (addr self) 0x01 [] = true)
    by (unfold valid_fields; rewrite Haddr; reflexivity).
  destruct (valid_fields_inv _ _ _ Hvalid) as (Ha & _).
  rewrite (init_save (addr self) (CmdEvent_value GET_INFO) None)
    by (cbn [CmdEvent_value]; lia).
  cbn [bind CmdEvent_value]. rewrite encode_save.
  rewrite (frame_bytes _ _ _ Hvalid).
  cbn [lift bind perform print run handle
       stdout serial_rx serial_log write_lock_held].
  set (raw := firstn (Z.to_nat 14) (serial_rx w)).
  rewrite run_bind.
  match goal with
  | |- context [run (CmdPacket__init__ (-1) (-1) (Some raw)) ?w1] =>
      destruct (init_decode_run raw w1) as (w2 & E2 & Hrx2 & Hlog2 & Hlk2)
  end.
  rewrite E2. rewrite run_bind.
  destruct (decode_returns (received_packet raw) raw w2)
    as (ret & p' & w3 & E3 & _ & Hrx3 & Hlog3 & Hlk3).
  rewrite E3.
  cbn [fst snd bind print perform run handle
       stdout serial_rx serial_log write_lock_held].
  rewrite run_bind.
  match goal with
  | |- context [run (CmdPacket__init__ (-1) (-1) (Some raw)) ?w4] =>
      destruct (init_decode_run raw w4) as (w5 & E5 & Hrx5 & Hlog5 & Hlk5)
  end.
  rewrite E5, run_lift. exists w5. split; [reflexivity|].
  cbn [serial_rx serial_log write_lock_held] in *.
  rewrite Hrx5, Hrx3, Hrx2, Hlog5, Hlog3, Hlog2, <- app_assoc.
  split; reflexivity.
Qed.

(** ** C8  The write lock *)









Lemma lock_after_other (X : Type) (ev : event X) (held : bool) :
  is_lock_event ev = false -> lock_after ev held = held.
Proof. destruct ev; intros H; (reflexivity || discriminate H). Qed.

(** Holding the lock around a call is something a program can do: a call
    that has no event on the lock, wrapped in [with_write_lock], has all its
    transport calls under the lock. *)
Lemma with_write_lock_guards (A : Type) (p : prog A) :
  never_locks p -> transport_under_lock false (with_write_lock p).
Proof.
  intros Hp. unfold with_write_lock, perform.
  cbn [bind transport_under_lock is_transport_event lock_after].
  split; [discriminate|]. intros _.
  induction Hp as [a | e | X ev k Hev Hk IH];
    cbn [ensure bind perform transport_under_lock is_transport_event
         lock_after].
  - split; [discriminate | intros _; exact I].
  - split; [discriminate | intros _; exact I].
  - split; [reflexivity|]. intros x0.
    rewrite (lock_after_other X ev true Hev). apply IH.
Qed.




(** * Further properties *)

(** ** The byte helpers *)

Lemma little_endian_digits (value : Z) (n k : nat) :
  le_value (map (fun i => Z.land (Z.shiftr value (8 * i)) 0xFF)
              (map Z.of_nat (seq k n)))
  = (value / 256 ^ Z.of_nat k) mod 256 ^ Z.of_nat n.
Proof.
  revert k; induction n as [|n IH]; intros k.
  - cbn [seq map le_value fold_right]. change (256 ^ Z.of_nat 0) with 1.
    rewrite Z.mod_1_r. reflexivity.
  - cbn [seq map le_value fold_right]. fold (le_value
      (map (fun i => Z.land (Z.shiftr value (8 * i)) 0xFF)
         (map Z.of_nat (seq (S k) n)))).
    rewrite IH, land_255_mod, Z.shiftr_div_pow2 by lia.
    replace (2 ^ (8 * Z.of_nat k)) with (256 ^ Z.of_nat k)
      by (change 256 with (2 ^ 8); rewrite <- Z.pow_mul_r by lia; reflexivity).
    replace (256 ^ Z.of_nat (S k)) with (256 ^ Z.of_nat k * 256)
      by (rewrite Nat2Z.inj_succ, Z.pow_succ_r by lia; lia).
    replace (256 ^ Z.of_nat (S n)) with (256 * 256 ^ Z.of_nat n)
      by (rewrite Nat2Z.inj_succ, Z.pow_succ_r by lia; lia).
    assert (0 < 256 ^ Z.of_nat k) by (apply Z.pow_pos_nonneg; lia).
    assert (0 < 256 ^ Z.of_nat n) by (apply Z.pow_pos_nonneg; lia).
    rewrite <- Z.div_div by lia.
    rewrite Z.rem_mul_r by lia. reflexivity.
Qed.

(** X1.  [int_to_little_endian_list(value, length)] has [length] elements
    (none when [length] is negative), each of them a byte, and read least
    significant byte first they are [value mod 256 ** length]: the value
    itself when it fits, its low bytes (two's complement for a negative
    value) when it does not. *)
Theorem little_endian_list_value (value length : Z) :
  List.length (int_to_little_endian_list value length) = Z.to_nat length /\
  forallb Py.is_u8 (int_to_little_endian_list value length) = true /\
  le_value (int_to_little_endian_list value length)
  = value mod 256 ^ Z.max 0 length.
Proof.
  unfold int_to_little_endian_list, Py.range. split; [|split].
  - rewrite !length_map, length_seq. reflexivity.
  - apply forallb_forall. intros b Hb. apply in_map_iff in Hb.
    destruct Hb as (i & <- & _). rewrite land_255_mod.
    pose proof (Z.mod_pos_bound (Z.shiftr value (8 * i)) 256 ltac:(lia)).
    unfold Py.is_u8. apply andb_true_intro. split; apply Z.leb_le; lia.
  - rewrite little_endian_digits. change (256 ^ Z.of_nat 0) with 1.
    rewrite Z.div_1_r. f_equal. f_equal. lia.
Qed.

Lemma signed_int_to_byte (value : Z) :
  -128 <= value <= 127 -> signed_byte (int_to_byte value) = value.
Proof.
  intros Hv. unfold int_to_byte, signed_byte. rewrite land_255_mod.
  pose proof (Z.mod_pos_bound value 256 ltac:(lia)) as Hm.
  destruct (Z.le_gt_cases 0 value) as [Hpos | Hneg].
  - rewrite Z.mod_small by lia.
    destruct (Z.ltb_spec value 128); lia.
  - replace (value mod 256) with (value + 256).
    + destruct (Z.ltb_spec (value + 256) 128); lia.
    + symmetry. replace value with (value + 256 + (-1) * 256) at 1 by lia.
      rewrite Z.mod_add by lia. apply Z.mod_small. lia.
Qed.

(** X2.  [int_to_byte(value)] is the byte congruent to [value] modulo 256:
    values 256 apart give the same byte, and a value in -128..127 is sent as
    its two's complement, from which the signed reading gives it back. *)
Theorem int_to_byte_twos_complement (value : Z) :
  0 <= int_to_byte value <= 255 /\
  (int_to_byte value - value) mod 256 = 0 /\
  (forall k, int_to_byte (value + 256 * k) = int_to_byte value) /\
  (-128 <= value <= 127 -> signed_byte (int_to_byte value) = value).
Proof.
  unfold int_to_byte. rewrite land_255_mod.
  pose proof (Z.mod_pos_bound value 256 ltac:(lia)) as Hm.
  split; [lia|]. split; [|split].
  - rewrite Zminus_mod, Z.mod_mod, Z.sub_diag by lia. reflexivity.
  - intros k. rewrite land_255_mod.
    rewrite (Z.mul_comm 256 k), Z.mod_add by lia. reflexivity.
  - intros Hv. pose proof (signed_int_to_byte value Hv) as H.
    unfold int_to_byte in H. rewrite land_255_mod in H. exact H.
Qed.

Lemma int_to_byte_twos_complement_witness :
  -128 <= -3 <= 127 /\ signed_byte (int_to_byte (-3)) = -3.
Proof.
  split; [lia|].
  destruct (int_to_byte_twos_complement (-3)) as (_ & _ & _ & H).
  apply H. lia.
Defined.

(** X3.  [get_bit(value, bit)] returns 0 or 1, the binary digit of weight
    [2 ** bit] of [value] (of its two's complement when it is negative), for
    every position [bit >= 0]; a negative position raises [ValueError]. *)
Theorem get_bit_digit (value bit : Z) :
  (0 <= bit -> get_bit value bit = Ok (Z.b2z (Z.testbit value bit))) /\
  (bit < 0 -> get_bit value bit = Raise (ValueError "negative shift count")).
Proof.
  unfold get_bit, Py.rshift. split; intros Hb.
  - destruct (Z.ltb_spec bit 0); [lia|]. cbn [obind]. f_equal.
    change 1 with (Z.ones 1). rewrite Z.land_ones by lia.
    change (2 ^ 1) with 2.
    rewrite <- Z.bit0_mod, Z.shiftr_spec by lia. rewrite Z.add_0_l.
    reflexivity.
  - destruct (Z.ltb_spec bit 0); [reflexivity | lia].
Qed.

Lemma get_bit_digit_witness :
  0 <= 2 /\ get_bit 0x05 2 = Ok (Z.b2z (Z.testbit 0x05 2)) /\
  -1 < 0 /\ get_bit 0x05 (-1) = Raise (ValueError "negative shift count").
Proof.
  destruct (get_bit_digit 0x05 2) as [H _].
  destruct (get_bit_digit 0x05 (-1)) as [_ H'].
  split; [lia|]. split; [apply H; lia|]. split; [lia|]. apply H'. lia.
Defined.

(** ** The header scan *)

(** X4.  [_find_head(lst)] never raises.  It returns -1 exactly when no
    two neighbours of [lst] are [0x57, 0xAB] (in particular on the empty list
    and on a one-element list); otherwise it returns the least index at which
    such a pair starts, and that index is at most [len(lst) - 2]. *)
Theorem find_head_least_index (lst : list Z) :
  exists hi,
    _find_head lst = Ok hi /\
    ((hi = -1 /\ forall j, sync_at lst j = false) \/
     (0 <= hi <= Py.len lst - 2 /\
      sync_at lst (Z.to_nat hi) = true /\
      forall j, (j < Z.to_nat hi)%nat -> sync_at lst j = false)).
Proof.
  exists (scan 0 lst). split; [apply find_head_scan|].
  destruct (scan_range lst 0) as [Hs | Hs].
  - left. split; [exact Hs|]. exact (scan_none lst 0 ltac:(lia) Hs).
  - right. split; [lia|].
    destruct (scan_first lst 0 ltac:(lia) ltac:(lia)) as [H1 H2].
    replace (scan 0 lst - 0) with (scan 0 lst) in * by lia.
    split; assumption.
Qed.

(** ** Frames inside a buffer *)

(** The scan walks over bytes in which no sync pair starts. *)
Lemma scan_skips_garbage (garbage tail : list Z) (i : Z) :
  (forall j, sync_at garbage j = false) ->
  scan i (garbage ++ HEAD1 :: HEAD2 :: tail) = i + Py.len garbage.
Proof.
  revert i; induction garbage as [|x g IH]; intros i Hg.
  - cbn [app]. rewrite scan_cons2. cbn. lia.
  - rewrite len_cons. destruct g as [|y g'].
    + cbn [app]. rewrite scan_cons2.
      replace (HEAD1 =? HEAD2) with false by reflexivity.
      rewrite andb_false_r, scan_cons2. cbn. lia.
    + cbn [app]. rewrite scan_cons2.
      pose proof (Hg 0%nat) as H0. unfold sync_at in H0. cbn [nth_error] in H0.
      fold HEAD1 HEAD2 in H0. rewrite H0.
      change (y :: g' ++ HEAD1 :: HEAD2 :: tail)
        with ((y :: g') ++ HEAD1 :: HEAD2 :: tail).
      rewrite IH by (intros j; exact (Hg (S j))). lia.
Qed.

Lemma skipn_length_app (l1 l2 : list Z) :
  skipn (List.length l1) (l1 ++ l2) = l2.
Proof.
  rewrite skipn_app, skipn_all, Nat.sub_diag. reflexivity.
Qed.

(** A buffer made of bytes without a sync pair, the five header bytes of a
    frame, its payload, one more byte [s] and anything after it: [decode]
    succeeds exactly when [s] is the checksum. *)
Lemma decode_frame_shaped (garbage : list Z) (a c : Z) (payload : list Z)
    (s : Z) (rest : list Z) (self : CmdPacket) (w : World) :
  (forall j, sync_at garbage j = false) ->
  let raw := garbage ++ [0x57; 0xAB; a; c; Py.len payload] ++ payload
               ++ s :: rest in
  run (decode self raw) w
  = if checksum a c payload =? s
    then (Ok (0, mkCmdPacket a c (Py.len payload) payload s, raw), w)
    else (Ok (-1, self, raw), w).
Proof.
  intros Hg raw. rewrite decode_run. unfold decode_view. cbv zeta.
  set (h := List.length garbage).
  assert (Hscan : scan 0 raw = Z.of_nat h).
  { unfold raw. cbn [app]. fold HEAD1 HEAD2.
    rewrite scan_skips_garbage by exact Hg. unfold Py.len. lia. }
  assert (Etail : skipn h raw
                  = 0x57 :: 0xAB :: a :: c :: Py.len payload
                      :: (payload ++ s :: rest))
    by (unfold raw, h; rewrite skipn_length_app; reflexivity).
  assert (Hlen : Py.len raw
                 = Z.of_nat h + 6 + Py.len payload + Py.len rest).
  { unfold raw, Py.len, h.
    repeat (rewrite length_app || cbn [List.length]). lia. }
  pose proof (len_nonneg payload) as Hp. pose proof (len_nonneg rest) as Hr.
  rewrite Hscan.
  destruct (Z.ltb_spec (Z.of_nat h) 0); [lia|].
  destruct (Z.ltb_spec (Py.len raw - Z.of_nat h) 6); [lia|].
  replace (Z.to_nat (Z.of_nat h + 2)) with (h + 2)%nat by lia.
  replace (Z.to_nat (Z.of_nat h + 3)) with (h + 3)%nat by lia.
  replace (Z.to_nat (Z.of_nat h + 4)) with (h + 4)%nat by lia.
  rewrite !nth_skipn_add, Etail. cbn [nth Nat.add].
  destruct (Z.ltb_spec (Py.len raw) (Z.of_nat h + 5 + Py.len payload + 1));
    [lia|].
  rewrite getitem_in_range by lia.
  replace (Z.to_nat (Z.of_nat h + 5 + Py.len payload))
    with (h + (5 + List.length payload))%nat by (unfold Py.len; lia).
  rewrite nth_skipn_add, Etail.
  change (nth (5 + List.length payload)
            (0x57 :: 0xAB :: a :: c :: Py.len payload
               :: (payload ++ s :: rest)) 0)
    with (nth (List.length payload) (payload ++ s :: rest) 0).
  rewrite nth_middle.
  rewrite !slice_in_range by lia.
  replace (Z.to_nat (Z.of_nat h + 5 + Py.len payload - Z.of_nat h))
    with (5 + List.length payload)%nat by (unfold Py.len; lia).
  replace (Z.to_nat (Z.of_nat h + 5 + Py.len payload - (Z.of_nat h + 5)))
    with (List.length payload) by (unfold Py.len; lia).
  replace (Z.to_nat (Z.of_nat h + 5)) with (5 + h)%nat by lia.
  rewrite Nat2Z.id, <- skipn_skipn, Etail.
  change (skipn 5 (0x57 :: 0xAB :: a :: c :: Py.len payload
                     :: (payload ++ s :: rest)))
    with (payload ++ s :: rest).
  change (firstn (5 + List.length payload)
            (0x57 :: 0xAB :: a :: c :: Py.len payload
               :: (payload ++ s :: rest)))
    with ([0x57; 0xAB; a; c; Py.len payload]
            ++ firstn (List.length payload) (payload ++ s :: rest)).
  rewrite firstn_app, Nat.sub_diag, firstn_all. cbn [firstn].
  rewrite app_nil_r, sum_app, !sum_cons, sum_nil, land_255_mod.
  replace (87 + (171 + (a + (c + (Py.len payload + 0)))) + Py.sum payload)
    with (87 + 171 + a + c + Py.len payload + Py.sum payload) by lia.
  fold (checksum a c payload).
  destruct (checksum a c payload =? s); reflexivity.
Qed.

Lemma decode_result_shaped (garbage : list Z) (a c : Z) (payload : list Z)
    (s : Z) (rest : list Z) :
  (forall j, sync_at garbage j = false) ->
  decode_result (garbage ++ [0x57; 0xAB; a; c; Py.len payload] ++ payload
                   ++ s :: rest)
  = if checksum a c payload =? s
    then Decoded (mkCmdPacket a c (Py.len payload) payload s)
    else Failed ChecksumMismatch.
Proof.
  intros Hg. unfold decode_result.
  pose proof (decode_frame_shaped garbage a c payload s rest zero_packet
                world0 Hg) as E.
  cbv zeta in E. rewrite E.
  destruct (checksum a c payload =? s); reflexivity.
Qed.

Lemma decode_result_at_start (a c : Z) (payload : list Z) (s : Z)
    (rest : list Z) :
  decode_result ([0x57; 0xAB; a; c; Py.len payload] ++ payload ++ s :: rest)
  = if checksum a c payload =? s
    then Decoded (mkCmdPacket a c (Py.len payload) payload s)
    else Failed ChecksumMismatch.
Proof.
  assert (Hnil : forall j, sync_at [] j = false) by (intros [|j]; reflexivity).
  exact (decode_result_shaped [] a c payload s rest Hnil).
Qed.

Lemma frame_app_rest (a c : Z) (payload rest : list Z) :
  frame a c payload ++ rest
  = [0x57; 0xAB; a; c; Py.len payload] ++ payload
      ++ checksum a c payload :: rest.
Proof. unfold frame. rewrite <- !app_assoc. reflexivity. Qed.

(** X5.  Leading bytes in which no sync pair [0x57, 0xAB] starts, and any
    bytes after the checksum, do not change what [decode] finds: a frame
    between them is decoded with its own address, command, payload, length
    and checksum (whether or not its fields are bytes). *)
Theorem decode_skips_garbage (garbage : list Z) (address command : Z)
    (payload trailing : list Z) :
  (forall j, sync_at garbage j = false) ->
  decode_result (garbage ++ frame address command payload ++ trailing)
  = Decoded (mkCmdPacket address command (Py.len payload) payload
               (checksum address command payload)).
Proof.
  intros Hg. rewrite frame_app_rest, decode_result_shaped by exact Hg.
  rewrite Z.eqb_refl. reflexivity.
Qed.

Lemma decode_skips_garbage_witness :
  (forall j, sync_at [0x00; 0xAB; 0x57; 0x57] j = false) /\
  decode_result ([0x00; 0xAB; 0x57; 0x57] ++ frame 0x00 0x81 [0x30; 1; 0]
                   ++ [0x57; 0xAB; 0xFF])
  = Decoded (mkCmdPacket 0x00 0x81 (Py.len [0x30; 1; 0]) [0x30; 1; 0]
               (checksum 0x00 0x81 [0x30; 1; 0])).
Proof.
  assert (H : forall j, sync_at [0x00; 0xAB; 0x57; 0x57] j = false)
    by (intros [|[|[|[|[|j]]]]]; reflexivity).
  split; [exact H|].
  exact (decode_skips_garbage [0x00; 0xAB; 0x57; 0x57] 0x00 0x81
           [0x30; 1; 0] [0x57; 0xAB; 0xFF] H).
Defined.

(** ** What the checksum detects *)


Lemma is_u8_range (b : Z) : Py.is_u8 b = true -> 0 <= b <= 255.
Proof.
  unfold Py.is_u8. intros H. apply andb_prop in H. destruct H as [H1 H2].
  apply Z.leb_le in H1, H2. lia.
Qed.






Lemma sum_permutation (l l' : list Z) :
  Permutation l l' -> Py.sum l = Py.sum l'.
Proof.
  intros H. induction H as [| x l l' _ IH | x y l | l l' l'' _ IH1 _ IH2].
  - reflexivity.
  - rewrite !sum_cons, IH. reflexivity.
  - rewrite !sum_cons. lia.
  - rewrite IH1. exact IH2.
Qed.

(** X7.  What the checksum does not see: the order of the payload bytes.
    A frame whose payload has been rearranged, with every other byte as it
    was, decodes without error, to the rearranged payload. *)
Theorem checksum_blind_to_reordering (address command : Z)
    (payload shuffled trailing : list Z) :
  Permutation payload shuffled ->
  decode_result ([0x57; 0xAB; address; command; Py.len payload] ++ shuffled
                   ++ checksum address command payload :: trailing)
  = Decoded (mkCmdPacket address command (Py.len shuffled) shuffled
               (checksum address command shuffled)).
Proof.
  intros H.
  assert (Hlen : Py.len payload = Py.len shuffled)
    by (unfold Py.len; rewrite (Permutation_length H); reflexivity).
  assert (Hck : checksum address command payload
                = checksum address command shuffled)
    by (unfold checksum; rewrite Hlen, (sum_permutation _ _ H); reflexivity).
  rewrite Hlen, Hck.
  rewrite (decode_result_at_start address command shuffled
             (checksum address command shuffled) trailing).
  rewrite Z.eqb_refl. reflexivity.
Qed.

Lemma checksum_blind_to_reordering_witness :
  Permutation [0x02; 0x00; 0x10; 0x00; 0x08; 0x00] [0x02; 0x00; 0x00; 0x10; 0x00; 0x08] /\
  decode_result ([0x57; 0xAB; 0x00; 0x04;
                  Py.len [0x02; 0x00; 0x10; 0x00; 0x08; 0x00]]
                   ++ [0x02; 0x00; 0x00; 0x10; 0x00; 0x08]
                   ++ checksum 0x00 0x04 [0x02; 0x00; 0x10; 0x00; 0x08; 0x00]
                   :: [])
  = Decoded (mkCmdPacket 0x00 0x04
               (Py.len [0x02; 0x00; 0x00; 0x10; 0x00; 0x08])
               [0x02; 0x00; 0x00; 0x10; 0x00; 0x08]
               (checksum 0x00 0x04 [0x02; 0x00; 0x00; 0x10; 0x00; 0x08])).
Proof.
  assert (P : Permutation [0x02; 0x00; 0x10; 0x00; 0x08; 0x00]
                [0x02; 0x00; 0x00; 0x10; 0x00; 0x08]).
  { apply perm_skip. apply perm_skip.
    eapply perm_trans; [apply perm_swap|].
    apply perm_skip. apply perm_skip. apply perm_swap. }
  split; [exact P|].
  exact (checksum_blind_to_reordering 0x00 0x04 _ _ [] P).
Defined.

(** ** Packet objects *)

Lemma encode_consistent (p : CmdPacket) :
  consistent p -> encode p = frame (ADDR p) (CMD p) (DATA p).
Proof.
  intros [HL HS]. unfold encode, frame. rewrite HL, HS. reflexivity.
Qed.

(** X8.  Decoding, then encoding, gives back the frame that was found.  On
    a buffer of bytes on which [decode] succeeds, the decoded packet has the
    length and checksum of its payload; its [encode()] is a list of bytes, is
    a contiguous part of the buffer, and decodes to the same packet. *)
Theorem decode_then_encode (raw : list Z) (p : CmdPacket) :
  forallb Py.is_u8 raw = true ->
  decode_result raw = Decoded p ->
  consistent p /\
  Py.bytes (encode p) = Ok (encode p) /\
  (exists before after, raw = before ++ encode p ++ after) /\
  decode_result (encode p) = Decoded p.
Proof.
  intros Hbytes Hdec.
  destruct (decode_success_shape raw p Hbytes Hdec)
    as (Hpos & post & Eshape & HLEN & HSUM).
  assert (Hc : consistent p) by (split; assumption).
  rewrite (encode_consistent p Hc).
  assert (Eraw : raw = firstn (Z.to_nat (scan 0 raw)) raw
                       ++ frame (ADDR p) (CMD p) (DATA p) ++ post)
    by (rewrite <- Eshape; symmetry; apply firstn_skipn).
  split; [exact Hc|]. split; [|split].
  - apply frame_bytes, frame_bytes_inv.
    rewrite Eraw, !forallb_app in Hbytes.
    apply andb_prop in Hbytes. destruct Hbytes as [_ Hbytes].
    apply andb_prop in Hbytes. destruct Hbytes as [Hframe _]. exact Hframe.
  - eauto.
  - pose proof (decode_result_frame (ADDR p) (CMD p) (DATA p) []) as D.
    rewrite app_nil_r in D. rewrite D.
    destruct p as [a c l d s]. cbn [ADDR CMD DATA LEN SUM] in *.
    subst l s. reflexivity.
Qed.

Lemma decode_then_encode_witness :
  let raw := [0x00; 0x57; 0xAB; 0x00; 0x81; 0x03; 0x31; 0x01; 0x00; 0xB8; 0x57] in
  let p := mkCmdPacket 0x00 0x81 0x03 [0x31; 0x01; 0x00] 0xB8 in
  forallb Py.is_u8 raw = true /\
  decode_result raw = Decoded p /\
  consistent p /\
  Py.bytes (encode p) = Ok (encode p) /\
  (exists before after, raw = before ++ encode p ++ after) /\
  decode_result (encode p) = Decoded p.
Proof.
  cbv zeta. split; [reflexivity|]. split; [reflexivity|].
  apply (decode_then_encode
           [0x00; 0x57; 0xAB; 0x00; 0x81; 0x03; 0x31; 0x01; 0x00; 0xB8; 0x57]
           (mkCmdPacket 0x00 0x81 0x03 [0x31; 0x01; 0x00] 0xB8));
    reflexivity.
Defined.

Lemma init_negative_run (address command : Z) (data : option (list Z))
    (w : World) :
  (address <? 0) || (command <? 0) = true ->
  run (CmdPacket__init__ address command data) w
  = run (CmdPacket__init__ (-1) (-1)
           (Some match data with None => [] | Some d => d end)) w.
Proof.
  intros H. unfold CmdPacket__init__. rewrite H. reflexivity.
Qed.

Lemma zero_packet_inconsistent : ~ consistent zero_packet.
Proof. intros [_ H]. vm_compute in H. discriminate H. Qed.

(** X9.  What [CmdPacket(addr, cmd, data)] builds, for [data] a list of
    bytes (or omitted).  The constructor always returns.  With [addr] and
    [cmd] non-negative the object carries the length and checksum of [data].
    With a negative [addr] or [cmd] (either one), [data] is parsed as a raw
    buffer, and the object carries a matching length and checksum exactly when
    the parse succeeded: after a failed parse the fields are all zero, which is
    not a consistent packet (the checksum of an empty packet is 0x02). *)
Theorem constructor_consistent (address command : Z)
    (data : option (list Z)) (w : World) :
  let d := match data with None => [] | Some d => d end in
  forallb Py.is_u8 d = true ->
  exists p w',
    run (CmdPacket__init__ address command data) w = (Ok p, w') /\
    (0 <= address -> 0 <= command ->
     p = mkCmdPacket address command (Py.len d) d (checksum address command d)
     /\ w' = w) /\
    (address < 0 \/ command < 0 -> p = received_packet d) /\
    (consistent p <->
     (0 <= address /\ 0 <= command)
     \/ exists q, decode_result d = Decoded q).
Proof.
  intros d Hbytes.
  destruct (Z.ltb_spec address 0) as [Ha | Ha];
    [|destruct (Z.ltb_spec command 0) as [Hc | Hc]].
  3: { exists (mkCmdPacket address command (Py.len d) d
                 (checksum address command d)), w.
       rewrite init_save by lia. fold d. unfold _save.
       rewrite land_255_mod. fold (checksum address command d).
       split; [reflexivity|]. split; [auto|]. split; [lia|].
       split; [intros _; left; lia | intros _; split; reflexivity]. }
  all: rewrite init_negative_run
         by (apply orb_true_iff;
             first [left; apply Z.ltb_lt; lia | right; apply Z.ltb_lt; lia]);
       fold d;
       destruct (init_decode_run d w) as (w' & E & _);
       exists (received_packet d), w';
       (split; [exact E|]); (split; [lia|]); (split; [reflexivity|]);
       unfold received_packet;
       destruct (decode_result d) as [q | err |] eqn:Ed.
  all: try (split; [intros _; right; eauto
                   | intros _;
                     destruct (decode_success_shape d q Hbytes Ed)
                       as (_ & _ & _ & H1 & H2); split; assumption]).
  all: split; [intros H; exfalso; exact (zero_packet_inconsistent H)
              | intros [H | [q H]]; [lia | discriminate H]].
Qed.

Lemma constructor_consistent_witness :
  forallb Py.is_u8 [0x57; 0xAB; 0x00; 0x81; 0x00; 0x00] = true /\
  exists p w',
    run (CmdPacket__init__ 0 (-1) (Some [0x57; 0xAB; 0x00; 0x81; 0x00; 0x00]))
      world0 = (Ok p, w') /\
    p = zero_packet /\ ~ consistent p.
Proof.
  split; [reflexivity|].
  destruct (constructor_consistent 0 (-1)
              (Some [0x57; 0xAB; 0x00; 0x81; 0x00; 0x00]) world0 eq_refl)
    as (p & w' & E & _ & Hneg & Hiff).
  exists p, w'. split; [exact E|].
  assert (Hp : p = zero_packet) by (rewrite Hneg by lia; reflexivity).
  split; [exact Hp|]. rewrite Hp. exact zero_packet_inconsistent.
Defined.

(** ** The send methods *)

Lemma checksum_is_u8 (a c : Z) (payload : list Z) :
  Py.is_u8 (checksum a c payload) = true.
Proof.
  unfold checksum, Py.is_u8.
  pose proof (Z.mod_pos_bound
                (0x57 + 0xAB + a + c + Py.len payload + Py.sum payload) 256
                ltac:(lia)).
  apply andb_true_intro. split; apply Z.leb_le; lia.
Qed.

Lemma frame_all_bytes (a c : Z) (payload : list Z) :
  Py.is_u8 a = true -> Py.is_u8 c = true ->
  forallb Py.is_u8 (frame a c payload)
  = forallb Py.is_u8 payload && (Py.len payload <=? 255).
Proof.
  intros Ha Hc. unfold frame. rewrite !forallb_app. cbn [forallb].
  rewrite Ha, Hc, checksum_is_u8. cbn [andb].
  replace (Py.is_u8 (Py.len payload)) with (Py.len payload <=? 255).
  - rewrite !andb_true_r. apply andb_comm.
  - unfold Py.is_u8. pose proof (len_nonneg payload).
    destruct (Z.leb_spec 0 (Py.len payload)); [reflexivity | lia].
Qed.

(** Building the packet of byte fields and writing it: one write of the
    frame when the payload is made of at most 255 bytes, and otherwise the
    [ValueError] of [bytes], with nothing written. *)
Lemma run_send_frame (a c : Z) (data : list Z) (w : World) :
  Py.is_u8 a = true -> Py.is_u8 c = true ->
  run (pkt <- encode_packet a c data ;; write_list pkt)%prog w
  = if forallb Py.is_u8 data && (Py.len data <=? 255)
    then (Ok tt, written w (frame a c data))
    else (Raise (ValueError "bytes must be in range(0, 256)"), w).
Proof.
  intros Ha Hc.
  rewrite encode_packet_frame
    by (apply is_u8_range in Ha; apply is_u8_range in Hc; lia).
  cbn [bind]. rewrite run_write_list, frame_all_bytes by assumption.
  reflexivity.
Qed.

Lemma slice_prefix (l : list Z) (n : Z) :
  0 <= n -> Py.slice l 0 n = firstn (Z.to_nat n) l.
Proof.
  intros Hn. unfold Py.slice, Py.slice_bound.
  destruct (Z.ltb_spec n 0); [lia|]. cbn [Z.ltb Z.compare].
  pose proof (len_nonneg l) as Hl.
  replace (Z.max 0 (Z.min (Py.len l) 0)) with 0 by lia.
  rewrite Z.sub_0_r. cbn [Z.to_nat skipn].
  destruct (Z.le_gt_cases n (Py.len l)) as [H1 | H1].
  - replace (Z.max 0 (Z.min (Py.len l) n)) with n by lia. reflexivity.
  - replace (Z.max 0 (Z.min (Py.len l) n)) with (Py.len l) by lia.
    unfold Py.len in *. rewrite Nat2Z.id, firstn_all.
    symmetry. apply firstn_all2. lia.
Qed.

Lemma send_hid_report_run (self : NanoKVM) (data : list Z) (w : World) :
  Py.is_u8 (addr self) = true ->
  run (send_hid_report self data) w
  = if forallb Py.is_u8 (firstn 8 data)
    then (Ok tt, written w (frame (addr self) 0x02 (firstn 8 data)))
    else (Raise (ValueError "bytes must be in range(0, 256)"), w).
Proof.
  intros Ha. unfold send_hid_report. rewrite run_send_tail.
  cbn [CmdEvent_value]. rewrite run_send_frame by (exact Ha || reflexivity).
  rewrite slice_prefix by lia.
  change (Z.to_nat 8) with 8%nat.
  assert (Hlen : (Py.len (firstn 8 data) <=? 255) = true).
  { apply Z.leb_le. unfold Py.len.
    pose proof (firstn_le_length 8 data). lia. }
  rewrite Hlen, andb_true_r. reflexivity.
Qed.

(** X10.  [send_hid_report] sends the first eight elements of [data] and
    nothing else: a longer report is cut (what follows the eighth element is
    not looked at, even if it is no byte), a shorter one is sent as it is,
    without padding.  When those elements are bytes the frame is written
    once; when one of them is not, [ValueError] is raised and nothing is
    written. *)
Theorem send_hid_report_first_eight (self : NanoKVM) (data : list Z)
    (w : World) :
  Py.is_u8 (addr self) = true ->
  run (send_hid_report self data) w
  = if forallb Py.is_u8 (firstn 8 data)
    then (Ok tt, written w (frame (addr self) 0x02 (firstn 8 data)))
    else (Raise (ValueError "bytes must be in range(0, 256)"), w).
Proof. exact (send_hid_report_run self data w). Qed.

Lemma send_hid_report_first_eight_witness :
  Py.is_u8 (addr (mkNanoKVM 0x00)) = true /\
  run (send_hid_report (mkNanoKVM 0x00) [1; 2; 3; 4; 5; 6; 7; 8; 9; -1]) world0
  = if forallb Py.is_u8 (firstn 8 [1; 2; 3; 4; 5; 6; 7; 8; 9; -1])
    then (Ok tt,
          written world0
            (frame (addr (mkNanoKVM 0x00)) 0x02
               (firstn 8 [1; 2; 3; 4; 5; 6; 7; 8; 9; -1])))
    else (Raise (ValueError "bytes must be in range(0, 256)"), world0).
Proof.
  split; [reflexivity|].
  apply (send_hid_report_first_eight (mkNanoKVM 0x00)). reflexivity.
Defined.

(** X11.  [send_keyboard_data(modifier, key)] with bytes for the address,
    the modifier and the key writes one frame of 14 bytes, and that frame
    decodes to command 0x02 with the eight-byte report
    [modifier, 0, 0, 0, key, 0, 0, 0] as payload.  When the modifier or the
    key is no byte, [ValueError] is raised and nothing is written. *)
Theorem send_keyboard_data_frame (self : NanoKVM) (modifier key : Z)
    (w : World) :
  Py.is_u8 (addr self) = true ->
  let report := [modifier; 0; 0; 0; key; 0; 0; 0] in
  let sent := frame (addr self) 0x02 report in
  run (send_keyboard_data self modifier key) w
  = (if Py.is_u8 modifier && Py.is_u8 key
     then (Ok tt, written w sent)
     else (Raise (ValueError "bytes must be in range(0, 256)"), w)) /\
  List.length sent = 14%nat /\
  decode_result sent
  = Decoded (mkCmdPacket (addr self) 0x02 8 report
               (checksum (addr self) 0x02 report)).
Proof.
  intros Ha report sent. split; [|split].
  - unfold send_keyboard_data.
    rewrite (send_hid_report_run self _ w Ha).
    cbn [firstn forallb]. fold report. fold sent.
    replace (Py.is_u8 0) with true by reflexivity.
    rewrite !andb_true_r, !andb_true_l. reflexivity.
  - reflexivity.
  - pose proof (decode_result_frame (addr self) 0x02 report []) as D.
    rewrite app_nil_r in D. exact D.
Qed.

Lemma send_keyboard_data_frame_witness :
  Py.is_u8 (addr (mkNanoKVM 0x00)) = true /\
  run (send_keyboard_data (mkNanoKVM 0x00) 0x02 0x04) world0
  = (Ok tt,
     written world0
       [0x57; 0xAB; 0x00; 0x02; 0x08; 0x02; 0; 0; 0; 0x04; 0; 0; 0; 0x12]).
Proof.
  split; [reflexivity|].
  destruct (send_keyboard_data_frame (mkNanoKVM 0x00) 0x02 0x04 world0 eq_refl)
    as [H _].
  exact H.
Defined.

Lemma run_send_cases (a c : Z) (data : list Z) :
  writes_one_frame_or_fails
    (pkt <- encode_packet a c data ;; write_list pkt)%prog.
Proof.
  intros w. unfold encode_packet. rewrite !run_bind.
  destruct (init_returns a c (Some data) w) as (p & w1 & E & Hrx & Hlog & Hlk).
  rewrite E. cbn [run]. rewrite run_write_list.
  destruct (forallb Py.is_u8 (encode p)) eqn:Eb.
  - eexists. split; [|split; [|left; split; [reflexivity|]]].
    + exact Hrx.
    + exact Hlk.
    + exists (encode p). split; [exact Eb|]. cbn [serial_log].
      rewrite Hlog. reflexivity.
  - exists w1. split; [exact Hrx|]. split; [exact Hlk|].
    right. split; [reflexivity | exact Hlog].
Qed.

Lemma writes_one_frame_run_eq (p q : prog unit) :
  (forall w, run p w = run q w) ->
  writes_one_frame_or_fails q -> writes_one_frame_or_fails p.
Proof.
  intros Heq Hq w. destruct (Hq w) as (w' & H). exists w'.
  rewrite Heq. exact H.
Qed.

Lemma send_mouse_absolute_run (self : NanoKVM)
    (key width height x y scroll : Z) (w : World) :
  run (send_mouse_absolute_data self key width height x y scroll) w
  = run (pkt <- encode_packet (addr self) (CmdEvent_value SEND_MS_ABS_DATA)
                  (absolute_payload key (scaled x width) (scaled y height)
                     scroll) ;;
         write_list pkt)%prog w.
Proof.
  unfold send_mouse_absolute_data, scaled, Py.floordiv.
  destruct (width =? 0); destruct (height =? 0); cbn [lift bind];
    apply run_send_tail.
Qed.

(** X12.  Whatever their arguments and the controller's address, the four
    send methods do one of two things: write one list of bytes to the serial
    port and return, or raise the [ValueError] of [bytes] having written
    nothing.  They never read from the port, never write twice, never write
    part of a frame, and never touch the lock. *)
Theorem send_methods_write_once (self : NanoKVM) (data : list Z)
    (modifier key width height x y scroll : Z) :
  writes_one_frame_or_fails (send_hid_report self data) /\
  writes_one_frame_or_fails (send_keyboard_data self modifier key) /\
  writes_one_frame_or_fails (send_mouse_relative_data self key x y scroll) /\
  writes_one_frame_or_fails
    (send_mouse_absolute_data self key width height x y scroll).
Proof.
  split; [|split; [|split]].
  - eapply writes_one_frame_run_eq; [|apply run_send_cases].
    intros w. apply run_send_tail.
  - eapply writes_one_frame_run_eq; [|apply run_send_cases].
    intros w. apply run_send_tail.
  - eapply writes_one_frame_run_eq; [|apply run_send_cases].
    intros w. apply run_send_tail.
  - eapply writes_one_frame_run_eq; [|apply run_send_cases].
    intros w. apply send_mouse_absolute_run.
Qed.

(** ** Mouse reports *)

Lemma le_value_two_bytes (q : Z) :
  0 <= q < 65536 -> le_value (int_to_little_endian_list q 2) = q.
Proof.
  intros Hq. unfold int_to_little_endian_list, Py.range.
  rewrite little_endian_digits. change (256 ^ Z.of_nat 0) with 1.
  rewrite Z.div_1_r. apply Z.mod_small. change (Z.to_nat 2) with 2%nat.
  change (256 ^ Z.of_nat 2) with 65536. lia.
Qed.

Lemma land_255_is_u8 (q : Z) : Py.is_u8 (Z.land q 0xFF) = true.
Proof.
  rewrite land_255_mod. unfold Py.is_u8.
  pose proof (Z.mod_pos_bound q 256 ltac:(lia)).
  apply andb_true_intro. split; apply Z.leb_le; lia.
Qed.

Lemma scaled_in_surface (v dim : Z) :
  0 <= v < dim ->
  scaled v dim = v * 4096 / dim /\ 0 <= v * 4096 / dim <= 4095.
Proof.
  intros H. pose proof (scaled_range v dim H) as R. unfold scaled in *.
  destruct (Z.eqb_spec dim 0); [lia|]. split; [reflexivity | exact R].
Qed.

(** The run of [send_mouse_absolute_data] for a pointer inside the
    surface and bytes for the address, the buttons and the scroll. *)
Lemma send_mouse_absolute_ok (self : NanoKVM)
    (key width height x y scroll : Z) (w : World) :
  Py.is_u8 (addr self) = true -> Py.is_u8 key = true ->
  Py.is_u8 scroll = true ->
  0 <= x < width -> 0 <= y < height ->
  run (send_mouse_absolute_data self key width height x y scroll) w
  = (Ok tt,
     written w
       (frame (addr self) 0x04
          ([0x02; key] ++ int_to_little_endian_list (x * 4096 / width) 2
             ++ int_to_little_endian_list (y * 4096 / height) 2
             ++ [scroll]))).
Proof.
  intros Ha Hk Hs Hx Hy. rewrite send_mouse_absolute_run.
  destruct (scaled_in_surface x width Hx) as [-> _].
  destruct (scaled_in_surface y height Hy) as [-> _].
  cbn [CmdEvent_value]. rewrite run_send_frame by (exact Ha || reflexivity).
  unfold absolute_payload. cbn [forallb].
  rewrite Hk, Hs, !land_255_is_u8. reflexivity.
Qed.

(** X13.  For a pointer inside the surface ([0 <= x < width],
    [0 <= y < height]) and bytes for the address, the buttons and the scroll,
    [send_mouse_absolute_data] writes one frame, of command 0x04, whose
    payload is [0x02], the buttons, two bytes for x, two bytes for y and the
    scroll; read least significant byte first, the two bytes for x are
    [(x * 4096) // width], a value in 0-4095, and likewise for y. *)
Theorem send_mouse_absolute_in_surface (self : NanoKVM)
    (key width height x y scroll : Z) (w : World) :
  Py.is_u8 (addr self) = true -> Py.is_u8 key = true ->
  Py.is_u8 scroll = true ->
  0 <= x < width -> 0 <= y < height ->
  let x_field := int_to_little_endian_list (x * 4096 / width) 2 in
  let y_field := int_to_little_endian_list (y * 4096 / height) 2 in
  run (send_mouse_absolute_data self key width height x y scroll) w
  = (Ok tt,
     written w
       (frame (addr self) 0x04
          ([0x02; key] ++ x_field ++ y_field ++ [scroll]))) /\
  le_value x_field = x * 4096 / width /\ 0 <= le_value x_field <= 4095 /\
  le_value y_field = y * 4096 / height /\ 0 <= le_value y_field <= 4095.
Proof.
  intros Ha Hk Hs Hx Hy x_field y_field.
  destruct (scaled_in_surface x width Hx) as [_ Rx].
  destruct (scaled_in_surface y height Hy) as [_ Ry].
  split; [apply send_mouse_absolute_ok; assumption|].
  unfold x_field, y_field. rewrite !le_value_two_bytes by lia.
  repeat split; lia.
Qed.

Lemma send_mouse_absolute_in_surface_witness :
  Py.is_u8 (addr (mkNanoKVM 0x00)) = true /\ Py.is_u8 0x01 = true /\
  Py.is_u8 0x00 = true /\ 0 <= 1919 < 1920 /\ 0 <= 1079 < 1080 /\
  run (send_mouse_absolute_data (mkNanoKVM 0x00) 0x01 1920 1080 1919 1079 0x00)
    world0
  = (Ok tt,
     written world0
       [0x57; 0xAB; 0x00; 0x04; 0x07;
        0x02; 0x01; 0xFD; 0x0F; 0xFC; 0x0F; 0x00; 0x27]).
Proof.
  split; [reflexivity|]. split; [reflexivity|]. split; [reflexivity|].
  split; [lia|]. split; [lia|].
  destruct (send_mouse_absolute_in_surface (mkNanoKVM 0x00)
              0x01 1920 1080 1919 1079 0x00 world0
              eq_refl eq_refl eq_refl ltac:(lia) ltac:(lia)) as [H _].
  exact H.
Defined.

Lemma scaled_step (x1 x2 width : Z) :
  0 <= x1 < x2 -> 0 < width <= 4096 ->
  x1 * 4096 / width < x2 * 4096 / width.
Proof.
  intros Hx Hw.
  assert (H : x1 * 4096 / width + 1 <= x2 * 4096 / width); [|lia].
  rewrite <- (Z.div_add (x1 * 4096) 1 width) by lia.
  apply Z.div_le_mono; lia.
Qed.

Lemma written_inj (w : World) (f1 f2 : list Z) :
  written w f1 = written w f2 -> f1 = f2.
Proof.
  unfold written. intros H. injection H as H.
  apply app_inv_head in H. injection H as H. exact H.
Qed.

Lemma frame_inj (a c : Z) (p1 p2 : list Z) :
  frame a c p1 = frame a c p2 -> p1 = p2.
Proof.
  unfold frame. cbn [app]. intros H. injection H as _ H.
  apply app_inj_tail in H. destruct H as [H _]. exact H.
Qed.

Lemma app_inv_head_length (l1 l2 t1 t2 : list Z) :
  l1 ++ t1 = l2 ++ t2 -> List.length l1 = List.length l2 -> t1 = t2.
Proof.
  intros H Hl. apply (f_equal (skipn (List.length l1))) in H.
  rewrite skipn_length_app, Hl, skipn_length_app in H. exact H.
Qed.

(** X14.  On a surface at most 4096 wide no pointer resolution is lost:
    two pointer positions in different columns of the surface are sent as
    different frames (and likewise for rows of a surface at most 4096
    high). *)
Theorem absolute_columns_distinct (self : NanoKVM)
    (key width height x1 x2 y scroll : Z) (w : World) :
  Py.is_u8 (addr self) = true -> Py.is_u8 key = true ->
  Py.is_u8 scroll = true ->
  0 <= x1 < x2 -> x2 < width -> width <= 4096 -> 0 <= y < height ->
  run (send_mouse_absolute_data self key width height x1 y scroll) w
  <> run (send_mouse_absolute_data self key width height x2 y scroll) w
  /\
  run (send_mouse_absolute_data self key height width y x1 scroll) w
  <> run (send_mouse_absolute_data self key height width y x2 scroll) w.
Proof.
  intros Ha Hk Hs Hx Hx2 Hw Hy.
  pose proof (scaled_step x1 x2 width Hx ltac:(lia)) as Hstep.
  destruct (scaled_in_surface x1 width ltac:(lia)) as [_ R1].
  destruct (scaled_in_surface x2 width ltac:(lia)) as [_ R2].
  pose proof (le_value_two_bytes (x1 * 4096 / width) ltac:(lia)) as L1.
  pose proof (le_value_two_bytes (x2 * 4096 / width) ltac:(lia)) as L2.
  assert (Hdiff : int_to_little_endian_list (x1 * 4096 / width) 2
                  <> int_to_little_endian_list (x2 * 4096 / width) 2)
    by (intros E; rewrite E in L1; lia).
  split; intros E;
    rewrite !send_mouse_absolute_ok in E by (assumption || lia);
    apply (f_equal snd) in E; cbn [snd] in E;
    apply written_inj, frame_inj in E;
    apply app_inv_head in E.
  - apply app_inv_tail in E. exact (Hdiff E).
  - apply app_inv_head_length in E; [|reflexivity].
    apply app_inv_tail in E. exact (Hdiff E).
Qed.

Lemma absolute_columns_distinct_witness :
  Py.is_u8 (addr (mkNanoKVM 0x00)) = true /\ Py.is_u8 0 = true /\
  0 <= 100 < 101 /\ 101 < 1920 /\ 1920 <= 4096 /\ 0 <= 5 < 1080 /\
  run (send_mouse_absolute_data (mkNanoKVM 0x00) 0 1920 1080 100 5 0) world0
  <> run (send_mouse_absolute_data (mkNanoKVM 0x00) 0 1920 1080 101 5 0) world0.
Proof.
  split; [reflexivity|]. split; [reflexivity|].
  split; [lia|]. split; [lia|]. split; [lia|]. split; [lia|].
  destruct (absolute_columns_distinct (mkNanoKVM 0x00) 0 1920 1080 100 101 5 0
              world0 eq_refl eq_refl eq_refl ltac:(lia) ltac:(lia) ltac:(lia)
              ltac:(lia)) as [H _].
  exact H.
Defined.

(** X15.  For bytes for the address, the buttons and the scroll, and
    deltas between -128 and 127, [send_mouse_relative_data] writes one frame
    of command 0x05 with the five-byte payload [0x01, buttons, bx, by,
    scroll], where [bx] and [by], read as signed bytes, are the deltas; and
    that frame decodes to this command and payload. *)
Theorem send_mouse_relative_signed (self : NanoKVM) (key dx dy scroll : Z)
    (w : World) :
  Py.is_u8 (addr self) = true -> Py.is_u8 key = true ->
  Py.is_u8 scroll = true ->
  -128 <= dx <= 127 -> -128 <= dy <= 127 ->
  exists bx by_,
    let payload := [0x01; key; bx; by_; scroll] in
    run (send_mouse_relative_data self key dx dy scroll) w
    = (Ok tt, written w (frame (addr self) 0x05 payload)) /\
    signed_byte bx = dx /\ signed_byte by_ = dy /\
    decode_result (frame (addr self) 0x05 payload)
    = Decoded (mkCmdPacket (addr self) 0x05 5 payload
                 (checksum (addr self) 0x05 payload)).
Proof.
  intros Ha Hk Hs Hx Hy.
  exists (int_to_byte dx), (int_to_byte dy). cbv zeta.
  split; [|split; [|split]].
  - unfold send_mouse_relative_data. cbv zeta. rewrite run_send_tail.
    cbn [CmdEvent_value]. rewrite run_send_frame by (exact Ha || reflexivity).
    cbn [forallb]. unfold int_to_byte.
    rewrite Hk, Hs, !land_255_is_u8. reflexivity.
  - apply signed_int_to_byte. exact Hx.
  - apply signed_int_to_byte. exact Hy.
  - match goal with
    | |- decode_result (frame ?a ?c ?p) = _ =>
        pose proof (decode_result_frame a c p []) as D
    end.
    rewrite app_nil_r in D. exact D.
Qed.

Lemma send_mouse_relative_signed_witness :
  Py.is_u8 (addr (mkNanoKVM 0x00)) = true /\ Py.is_u8 0x01 = true /\
  Py.is_u8 0x00 = true /\ -128 <= -3 <= 127 /\ -128 <= 5 <= 127 /\
  exists bx by_,
    let payload := [0x01; 0x01; bx; by_; 0x00] in
    run (send_mouse_relative_data (mkNanoKVM 0x00) 0x01 (-3) 5 0x00) world0
    = (Ok tt, written world0 (frame (addr (mkNanoKVM 0x00)) 0x05 payload)) /\
    signed_byte bx = -3 /\ signed_byte by_ = 5 /\
    decode_result (frame (addr (mkNanoKVM 0x00)) 0x05 payload)
    = Decoded (mkCmdPacket (addr (mkNanoKVM 0x00)) 0x05 5 payload
                 (checksum (addr (mkNanoKVM 0x00)) 0x05 payload)).
Proof.
  split; [reflexivity|]. split; [reflexivity|]. split; [reflexivity|].
  split; [lia|]. split; [lia|].
  apply (send_mouse_relative_signed (mkNanoKVM 0x00) 0x01 (-3) 5 0x00 world0);
    (reflexivity || lia).
Defined.

(** ** get_info *)

Lemma firstn_app_short (n : nat) (l1 l2 : list Z) :
  (n <= List.length l1)%nat -> firstn n (l1 ++ l2) = firstn n l1.
Proof.
  intros H. rewrite firstn_app.
  replace (n - List.length l1)%nat with 0%nat by lia.
  cbn [firstn]. apply app_nil_r.
Qed.

Lemma firstn_app_long (n : nat) (l1 l2 : list Z) :
  (List.length l1 <= n)%nat ->
  firstn n (l1 ++ l2) = l1 ++ firstn (n - List.length l1) l2.
Proof.
  intros H. rewrite firstn_app, firstn_all2 by lia. reflexivity.
Qed.

(** X16.  [get_info] takes the payload of whatever frame starts the
    response: when the pending bytes begin with a frame of at most 8 payload
    bytes, of any address and any command, the result is that of
    [InfoPacket] on its payload.  The address and the command of the response
    are not looked at.  The call consumes 14 bytes of the pending input (all
    of it when there is less), so what follows the frame within those 14
    bytes is lost and the rest stays for the next read. *)
Theorem get_info_takes_any_frame (self : NanoKVM) (w : World)
    (address command : Z) (payload rest : list Z) :
  Py.is_u8 (addr self) = true ->
  (List.length payload <= 8)%nat ->
  serial_rx w = frame address command payload ++ rest ->
  fst (run (get_info self) w) = InfoPacket__init__ payload /\
  serial_rx (snd (run (get_info self) w)) = skipn 14 (serial_rx w) /\
  serial_log (snd (run (get_info self) w))
  = serial_log w ++ [Wrote (frame (addr self) 0x01 []);
                     DidRead 14 (firstn 14 (serial_rx w))].
Proof.
  intros Ha Hlen Hrx.
  destruct (get_info_run_rx self w Ha) as (w' & E & Hrx' & Hlog).
  rewrite E. cbn [fst snd]. split; [|split; assumption].
  rewrite Hrx, firstn_app_long by (rewrite frame_length; lia).
  unfold received_packet. rewrite decode_result_frame. reflexivity.
Qed.

Lemma get_info_takes_any_frame_witness :
  let w := world_with_rx
             ([0x57; 0xAB; 0x07; 0x02; 0x03; 0x31; 0x01; 0x04; 0x44]
                ++ [0xAA; 0xBB; 0xCC; 0xDD; 0xEE; 0xFF]) in
  Py.is_u8 (addr (mkNanoKVM 0x00)) = true /\
  fst (run (get_info (mkNanoKVM 0x00)) w)
  = Ok (mkInfoPacket "V1.1" true false false true) /\
  serial_rx (snd (run (get_info (mkNanoKVM 0x00)) w)) = [0xFF].
Proof.
  cbv zeta. split; [reflexivity|].
  destruct (get_info_takes_any_frame (mkNanoKVM 0x00)
              (world_with_rx
                 ([0x57; 0xAB; 0x07; 0x02; 0x03; 0x31; 0x01; 0x04; 0x44]
                    ++ [0xAA; 0xBB; 0xCC; 0xDD; 0xEE; 0xFF]))
              0x07 0x02 [0x31; 0x01; 0x04] [0xAA; 0xBB; 0xCC; 0xDD; 0xEE; 0xFF]
              eq_refl ltac:(simpl; lia) eq_refl) as (H1 & H2 & _).
  split.
  - rewrite H1. vm_compute. reflexivity.
  - rewrite H2. reflexivity.
Defined.

(** A frame cut after its length byte and before its end fails a length
    check. *)
Lemma decode_result_cut_frame (a c : Z) (payload rest : list Z) (n : nat) :
  (6 <= n)%nat -> (n < 6 + List.length payload)%nat ->
  decode_result (firstn n (frame a c payload ++ rest)) = Failed Truncated.
Proof.
  intros H6 Hn.
  rewrite firstn_app_short by (rewrite frame_length; lia).
  replace n with (6 + (n - 6))%nat by lia.
  rewrite firstn_frame_6 by lia.
  unfold decode_result. rewrite decode_run. unfold decode_view.
  set (raw := [0x57; 0xAB; a; c; Py.len payload]
                ++ firstn (S (n - 6)) payload).
  assert (Hlen : Py.len raw = Z.of_nat n).
  { unfold raw, Py.len. rewrite length_app, length_firstn.
    cbn [List.length]. lia. }
  replace (scan 0 raw) with 0 by reflexivity.
  change (0 <? 0) with false. cbv iota.
  destruct (Z.ltb_spec (Py.len raw - 0) 6); [lia|].
  change (nth (Z.to_nat (0 + 4)) raw 0) with (Py.len payload).
  destruct (Z.ltb_spec (Py.len raw) (0 + 5 + Py.len payload + 1));
    [reflexivity | unfold Py.len in *; lia].
Qed.

(** X17.  [get_info] reads 14 bytes, the size of a frame with 8 payload
    bytes.  When the pending bytes begin with a frame of 9 payload bytes or
    more, however well-formed, the frame is cut, decoding fails, and the
    caller gets [IndexError]; the bytes of the frame beyond the fourteenth
    stay in the receive buffer. *)
Theorem get_info_long_frame (self : NanoKVM) (w : World)
    (address command : Z) (payload rest : list Z) :
  Py.is_u8 (addr self) = true ->
  (9 <= List.length payload)%nat ->
  serial_rx w = frame address command payload ++ rest ->
  decode_result (firstn 14 (serial_rx w)) = Failed Truncated /\
  fst (run (get_info self) w) = Raise IndexError /\
  serial_rx (snd (run (get_info self) w))
  = skipn 9 payload ++ checksum address command payload :: rest.
Proof.
  intros Ha Hlen Hrx.
  destruct (get_info_run_rx self w Ha) as (w' & E & Hrx' & Hlog).
  assert (Hcut : decode_result (firstn 14 (serial_rx w)) = Failed Truncated)
    by (rewrite Hrx; apply decode_result_cut_frame; lia).
  rewrite E. cbn [fst snd]. split; [exact Hcut|]. split.
  - unfold received_packet. rewrite Hcut. reflexivity.
  - rewrite Hrx', Hrx. unfold frame.
    change (skipn 14
              (([0x57; 0xAB; address; command; Py.len payload] ++ payload
                  ++ [checksum address command payload]) ++ rest))
      with (skipn 9
              ((payload ++ [checksum address command payload]) ++ rest)).
    rewrite <- app_assoc, skipn_app.
    replace (9 - List.length payload)%nat with 0%nat by lia. reflexivity.
Qed.

Lemma get_info_long_frame_witness :
  let payload := [0x30; 1; 2; 3; 4; 5; 6; 7; 8] in
  let w := world_with_rx (frame 0x00 0x81 payload ++ []) in
  Py.is_u8 (addr (mkNanoKVM 0x00)) = true /\
  (9 <= List.length payload)%nat /\
  fst (run (get_info (mkNanoKVM 0x00)) w) = Raise IndexError /\
  serial_rx (snd (run (get_info (mkNanoKVM 0x00)) w))
  = [checksum 0x00 0x81 payload].
Proof.
  cbv zeta. split; [reflexivity|]. split; [simpl; lia|].
  destruct (get_info_long_frame (mkNanoKVM 0x00)
              (world_with_rx (frame 0x00 0x81 [0x30; 1; 2; 3; 4; 5; 6; 7; 8] ++ []))
              0x00 0x81 [0x30; 1; 2; 3; 4; 5; 6; 7; 8] []
              eq_refl ltac:(simpl; lia) eq_refl) as (_ & H1 & H2).
  split; [exact H1 | exact H2].
Defined.

(** ** InfoPacket *)

Lemma info_packet_run (d0 d1 d2 : Z) (rest : list Z) :
  InfoPacket__init__ (d0 :: d1 :: d2 :: rest)
  = if d0 <? 0x30 then Raise (ValueError "version error")
    else
      (fe <~ float_of_int (d0 - 0x30) ;;
       Ok (mkInfoPacket
             ("V" ++ format_1f
                (SFadd float_prec float_emax (float_lit 1)
                   (SFdiv float_prec float_emax fe (float_lit 10))))%string
             (negb (d1 =? 0))
             (Z.testbit d2 0) (Z.testbit d2 1) (Z.testbit d2 2)))%outcome.
Proof.
  unfold InfoPacket__init__.
  pose proof (len_nonneg rest) as Hr.
  rewrite !getitem_in_range by (rewrite !len_cons; lia).
  cbn [Z.to_nat Pos.to_nat Pos.iter_op Nat.add nth obind].
  destruct (d0 <? 0x30); [reflexivity|].
  destruct (float_of_int (d0 - 0x30)); [|reflexivity]. cbn [obind].
  rewrite !get_bit_literal by lia. cbn [obind].
  rewrite !land_1_testbit by lia. reflexivity.
Qed.

Lemma info_packet_short_run (data : list Z) :
  (List.length data < 3)%nat ->
  InfoPacket__init__ data
  = match data with
    | [] => Raise IndexError
    | d0 :: _ =>
        if d0 <? 0x30 then Raise (ValueError "version error")
        else (fe <~ float_of_int (d0 - 0x30) ;; Raise IndexError)%outcome
    end.
Proof.
  intros Hlen. destruct data as [|d0 [|d1 [|d2 rest]]];
    cbn [List.length] in Hlen; try lia.
  - reflexivity.
  - unfold InfoPacket__init__.
    change (Py.getitem [d0] 0) with (Ok d0).
    change (Py.getitem [d0] 1) with (@Raise Z IndexError). cbn [obind].
    destruct (d0 <? 0x30); [reflexivity|].
    destruct (float_of_int (d0 - 0x30)); reflexivity.
  - unfold InfoPacket__init__.
    change (Py.getitem [d0; d1] 0) with (Ok d0).
    change (Py.getitem [d0; d1] 1) with (Ok d1).
    change (Py.getitem [d0; d1] 2) with (@Raise Z IndexError). cbn [obind].
    destruct (d0 <? 0x30); [reflexivity|].
    destruct (float_of_int (d0 - 0x30)); reflexivity.
Qed.

(** X18.  A payload of fewer than 3 bytes never gives a device
    information: the empty payload raises [IndexError]; a payload of one or
    two bytes raises the version error when its first byte is below 0x30 (the
    version is checked before the length is felt), and [IndexError]
    otherwise. *)
Theorem info_packet_short_payload (data : list Z) :
  forallb Py.is_u8 data = true ->
  (List.length data < 3)%nat ->
  InfoPacket__init__ data
  = match data with
    | [] => Raise IndexError
    | d0 :: _ =>
        if d0 <? 0x30 then Raise (ValueError "version error")
        else Raise IndexError
    end.
Proof.
  intros Hbytes Hlen. rewrite info_packet_short_run by exact Hlen.
  destruct data as [|d0 tail]; [reflexivity|].
  destruct (Z.ltb_spec d0 0x30); [reflexivity|].
  pose proof (nth_u8 (d0 :: tail) 0 Hbytes ltac:(simpl; lia)) as Hb.
  cbn [nth] in Hb.
  destruct (float_of_int_version (d0 - 0x30) ltac:(lia)) as [f Ef].
  rewrite Ef. reflexivity.
Qed.

Lemma info_packet_short_payload_witness :
  forallb Py.is_u8 [0x31; 0x01] = true /\
  (List.length [0x31; 0x01]%Z < 3)%nat /\
  InfoPacket__init__ [0x31; 0x01] = Raise IndexError.
Proof.
  split; [reflexivity|]. split; [simpl; lia|].
  exact (info_packet_short_payload [0x31; 0x01] eq_refl ltac:(simpl; lia)).
Defined.

Lemma version_strings_exact :
  forallb
    (fun e =>
       match float_of_int e with
       | Ok fe =>
           String.eqb
             ("V" ++ format_1f
                (SFadd float_prec float_emax (float_lit 1)
                   (SFdiv float_prec float_emax fe (float_lit 10))))%string
             ("V" ++ nat_digits ((e + 10) / 10) ++ "."
                  ++ nat_digits ((e + 10) mod 10))%string
       | Raise _ => false
       end) (Py.range 208) = true.
Proof. vm_compute. reflexivity. Qed.

(** X19.  The version string is exact.  Whenever [InfoPacket(data)]
    returns on a payload of bytes, the payload has at least 3 bytes, its
    first byte [b] is at least 0x30, and [CHIP_VERSION] is ["V"] followed by
    the decimal writing of [1 + (b - 0x30) / 10] with one digit after the
    point: the integer part [(b - 38) // 10], a point, the digit
    [(b - 38) % 10].  The floating-point division, addition and formatting
    never show a rounding error, for any of the 208 possible bytes. *)
Theorem chip_version_decimal (data : list Z) (info : InfoPacket) :
  forallb Py.is_u8 data = true ->
  InfoPacket__init__ data = Ok info ->
  (3 <= List.length data)%nat /\
  0x30 <= nth 0 data 0 <= 0xFF /\
  CHIP_VERSION info
  = ("V" ++ nat_digits ((nth 0 data 0 - 38) / 10) ++ "."
         ++ nat_digits ((nth 0 data 0 - 38) mod 10))%string.
Proof.
  intros Hbytes Hok.
  destruct (Nat.lt_ge_cases (List.length data) 3) as [Hshort | Hlong].
  { rewrite info_packet_short_run in Hok by exact Hshort.
    destruct data as [|d0 tail]; [discriminate Hok|].
    destruct (d0 <? 0x30); [discriminate Hok|].
    destruct (float_of_int (d0 - 0x30)); discriminate Hok. }
  split; [exact Hlong|].
  destruct data as [|d0 [|d1 [|d2 rest]]]; cbn [List.length] in Hlong; try lia.
  pose proof (nth_u8 _ 0 Hbytes ltac:(simpl; lia)) as Hb. cbn [nth] in Hb |- *.
  rewrite info_packet_run in Hok.
  destruct (Z.ltb_spec d0 0x30); [discriminate Hok|].
  split; [lia|].
  pose proof version_strings_exact as Hall. rewrite forallb_forall in Hall.
  assert (Hin : In (d0 - 0x30) (Py.range 208)).
  { unfold Py.range.
    replace (d0 - 0x30) with (Z.of_nat (Z.to_nat (d0 - 0x30))) by lia.
    apply in_map, in_seq. lia. }
  specialize (Hall _ Hin). cbv beta in Hall.
  destruct (float_of_int (d0 - 0x30)) as [fe|]; [|discriminate Hok].
  cbn [obind] in Hok. injection Hok as Hok. subst info. cbn [CHIP_VERSION].
  apply String.eqb_eq in Hall.
  replace (d0 - 38) with (d0 - 48 + 10) by lia. exact Hall.
Qed.

Lemma chip_version_decimal_witness :
  forallb Py.is_u8 [0xFF; 0x00; 0x02] = true /\
  InfoPacket__init__ [0xFF; 0x00; 0x02]
  = Ok (mkInfoPacket "V21.7" false false true false) /\
  CHIP_VERSION (mkInfoPacket "V21.7" false false true false)
  = ("V" ++ nat_digits ((nth 0 [0xFF; 0x00; 0x02] 0 - 38) / 10) ++ "."
         ++ nat_digits ((nth 0 [0xFF; 0x00; 0x02] 0 - 38) mod 10))%string.
Proof.
  assert (E : InfoPacket__init__ [0xFF; 0x00; 0x02]
              = Ok (mkInfoPacket "V21.7" false false true false))
    by (vm_compute; reflexivity).
  split; [reflexivity|]. split; [exact E|].
  destruct (chip_version_decimal [0xFF; 0x00; 0x02]
              (mkInfoPacket "V21.7" false false true false) eq_refl E)
    as (_ & _ & H).
  exact H.
Defined.

(** ** gui.py: the key tables *)

Lemma dict_get_set (V : Type) (d : list (Z * V)) (k k' : Z) (v : V) :
  dict_get (dict_set d k v) k'
  = if k =? k' then Some v else dict_get d k'.
Proof.
  induction d as [|[k0 v0] t IH]; cbn [dict_set dict_get].
  - reflexivity.
  - destruct (Z.eqb_spec k0 k) as [-> | Hk0]; cbn [dict_get].
    + destruct (k =? k'); reflexivity.
    + rewrite IH. destruct (Z.eqb_spec k0 k') as [-> | Hk0'].
      * destruct (Z.eqb_spec k k'); [congruence | reflexivity].
      * reflexivity.
Qed.

Lemma dict_get_fold (V : Type) (items d : list (Z * V)) (k : Z) :
  dict_get (fold_left (fun d kv => dict_set d (fst kv) (snd kv)) items d) k
  = fold_left (fun found kv => if fst kv =? k then Some (snd kv) else found)
      items (dict_get d k).
Proof.
  revert d; induction items as [|kv items IH]; intros d; cbn [fold_left].
  - reflexivity.
  - rewrite IH, dict_get_set. reflexivity.
Qed.

(** Looking a key up in a dict display gives the value of the last item
    with that key. *)
Lemma dict_get_items (V : Type) (items : list (Z * V)) (k : Z) :
  dict_get (dict_of_items items) k = last_item items k.
Proof. unfold dict_of_items, last_item. apply dict_get_fold. Qed.

Lemma last_item_fold_in (V : Type) (items : list (Z * V)) (k : Z)
    (acc : option V) (v : V) :
  fold_left (fun found kv => if fst kv =? k then Some (snd kv) else found)
    items acc = Some v ->
  acc = Some v \/ In (k, v) items.
Proof.
  revert acc; induction items as [|[k0 v0] items IH]; intros acc H;
    cbn [fold_left] in H.
  - left. exact H.
  - destruct (IH _ H) as [Hacc | Hin]; [|right; right; exact Hin].
    cbn [fst snd] in Hacc. destruct (Z.eqb_spec k0 k) as [-> | Hk].
    + right. left. congruence.
    + left. exact Hacc.
Qed.

Lemma last_item_in (V : Type) (items : list (Z * V)) (k : Z) (v : V) :
  last_item items k = Some v -> In (k, v) items.
Proof.
  intros H. destruct (last_item_fold_in V items k None v H) as [H0 | H0];
    [discriminate H0 | exact H0].
Qed.

Lemma last_item_fold_some (V : Type) (items : list (Z * V)) (k : Z) (v : V) :
  exists v',
    fold_left (fun found kv => if fst kv =? k then Some (snd kv) else found)
      items (Some v) = Some v'.
Proof.
  revert v; induction items as [|[k0 v0] items IH]; intros v; cbn [fold_left].
  - eauto.
  - cbn [fst snd]. destruct (k0 =? k); apply IH.
Qed.

Lemma last_item_none (V : Type) (items : list (Z * V)) (k : Z) :
  last_item items k = None <-> forall v, ~ In (k, v) items.
Proof.
  split.
  - unfold last_item. generalize (@None V) at 1 as acc.
    induction items as [|[k0 v0] items IH]; intros acc H v Hin.
    + exact Hin.
    + cbn [fold_left fst snd] in H. destruct Hin as [E | Hin].
      * injection E as -> ->. rewrite Z.eqb_refl in H.
        destruct (last_item_fold_some V items k v) as [v' E'].
        rewrite E' in H. discriminate H.
      * exact (IH _ H v Hin).
  - intros H. destruct (last_item items k) as [v|] eqn:E; [|reflexivity].
    exfalso. exact (H v (last_item_in V items k v E)).
Qed.

(** The lookup in [qt_to_hid_int_map], item by item from the last. *)
Lemma hid_map_lookup (Qt : string -> Z) (k : Z) :
  dict_get (qt_to_hid_int_map Qt) k
  = last_item (map (fun item => (Qt (fst item), snd item)) qt_to_hid_items) k.
Proof. unfold qt_to_hid_int_map. apply dict_get_items. Qed.

Ltac last_item_cases H :=
  unfold last_item, qt_to_hid_items in H;
  cbn [map fold_left fst snd] in H;
  repeat match type of H with
         | (if ?c then _ else _) = _ =>
             destruct c; [injection H as H; subst; cbv; intuition congruence|]
         end;
  try discriminate H.

(** Every usage code the map holds is a byte, is not 0, and is neither
    0x2D nor 0x38. *)
Lemma hid_map_values (Qt : string -> Z) (k h : Z) :
  dict_get (qt_to_hid_int_map Qt) k = Some h ->
  0x04 <= h <= 0xE3 /\ h <> 0x2D /\ h <> 0x38.
Proof.
  rewrite hid_map_lookup. intros H. last_item_cases H.
Qed.

(** X20.  Whatever the values of the Qt key constants, a lookup in
    [qt_to_hid_int_map] that finds a code finds the code of an item of the
    display whose key is the one looked up; that code is between 0x04 and
    0xE3, so it is a byte and passes the test [if hid_code:].  It is never
    0x2D or 0x38: the display lists [Qt.Key_Minus] and [Qt.Key_Slash] twice,
    and the later items (0x56 and 0x54, the keypad codes) replace the earlier
    ones.  [Qt.Key_Minus] maps to 0x56. *)
Theorem hid_map_codes (Qt : string -> Z) (k h : Z) :
  dict_get (qt_to_hid_int_map Qt) k = Some h ->
  (exists name, In (name, h) qt_to_hid_items /\ Qt name = k) /\
  0x04 <= h <= 0xE3 /\ h <> 0x2D /\ h <> 0x38 /\
  dict_get (qt_to_hid_int_map Qt) (Qt "Key_Minus") = Some 0x56.
Proof.
  intros H. split; [|split; [|split; [|split]]];
    try (destruct (hid_map_values Qt k h H) as (H1 & H2 & H3); assumption).
  - rewrite hid_map_lookup in H. apply last_item_in in H.
    apply in_map_iff in H. destruct H as ([name h'] & E & Hin).
    cbn [fst snd] in E. injection E as E1 E2. subst h'.
    exists name. split; assumption.
  - rewrite hid_map_lookup. unfold last_item, qt_to_hid_items.
    cbn [map fold_left fst snd]. rewrite Z.eqb_refl. reflexivity.
Qed.

Lemma hid_map_codes_witness :
  let Qt := fun name : string =>
              if String.eqb name "Key_Minus" then 0x2D
              else if String.eqb name "Key_Slash" then 0x2F
              else 0x01000000 + Z.of_nat (String.length name) in
  dict_get (qt_to_hid_int_map Qt) 0x2F = Some 0x54 /\
  ((exists name, In (name, 0x54) qt_to_hid_items /\ Qt name = 0x2F) /\
   0x04 <= 0x54 <= 0xE3 /\ 0x54 <> 0x2D /\ 0x54 <> 0x38 /\
   dict_get (qt_to_hid_int_map Qt) (Qt "Key_Minus") = Some 0x56).
Proof.
  cbv zeta.
  assert (E : dict_get
                (qt_to_hid_int_map
                   (fun name : string =>
                      if String.eqb name "Key_Minus" then 0x2D
                      else if String.eqb name "Key_Slash" then 0x2F
                      else 0x01000000 + Z.of_nat (String.length name)))
                0x2F = Some 0x54) by (vm_compute; reflexivity).
  split; [exact E|].
  exact (hid_map_codes _ 0x2F 0x54 E).
Defined.

(** ** gui.py: the key handlers *)

Lemma modifier_bits (shift control alt : bool) :
  let m1 := if shift then Z.lor 0x00 0x02 else 0x00 in
  let m2 := if control then Z.lor m1 0x01 else m1 in
  let m3 := if alt then Z.lor m2 0x04 else m2 in
  m3 = modifier_byte shift control alt.
Proof. destruct shift, control, alt; reflexivity. Qed.

Lemma modifier_byte_is_u8 (shift control alt : bool) :
  Py.is_u8 (modifier_byte shift control alt) = true.
Proof. destruct shift, control, alt; reflexivity. Qed.

Lemma run_keyboard_ok (self : NanoKVM) (modifier key_code : Z) (w : World) :
  Py.is_u8 (addr self) = true -> Py.is_u8 modifier = true ->
  Py.is_u8 key_code = true ->
  run (send_keyboard_data self modifier key_code) w
  = (Ok tt,
     written w (frame (addr self) 0x02 [modifier; 0; 0; 0; key_code; 0; 0; 0])).
Proof.
  intros Ha Hm Hk. unfold send_keyboard_data.
  rewrite (send_hid_report_run self _ w Ha). cbn [firstn forallb].
  rewrite Hm, Hk. reflexivity.
Qed.

(** The run of [keyPressEvent]. *)
Lemma key_press_run (Qt : string -> Z) (Qt_dir : list string)
    (self : KeyCaptureWindow) (event : QKeyEvent) (w : World) :
  Py.is_u8 (addr (device self)) = true ->
  let m := modifier_byte
             (negb (Z.land (modifiers event) (Qt "ShiftModifier") =? 0))
             (negb (Z.land (modifiers event) (Qt "ControlModifier") =? 0))
             (negb (Z.land (modifiers event) (Qt "AltModifier") =? 0)) in
  let name := qt_key_code_to_name Qt Qt_dir (key event) in
  run (keyPressEvent Qt Qt_dir self event) w
  = if isAutoRepeat event then (Ok tt, w)
    else
      match dict_get (qt_to_hid_int_map Qt) (key event) with
      | Some h =>
          (Ok tt,
           written
             (printed w ("Sending key " ++ name ++ " as " ++ str_int h))
             (frame (addr (device self)) 0x02 [m; 0; 0; 0; h; 0; 0; 0]))
      | None =>
          (Ok tt,
           printed w ("Unhandled key event : " ++ str_int (key event)
                        ++ " " ++ name))
      end.
Proof.
  intros Ha m name. unfold keyPressEvent.
  destruct (isAutoRepeat event); [reflexivity|]. cbv zeta.
  fold name.
  destruct (dict_get (qt_to_hid_int_map Qt) (key event)) as [h|] eqn:Eh;
    [|reflexivity].
  destruct (hid_map_values Qt _ _ Eh) as (Hr & _).
  destruct (Z.eqb_spec h 0) as [-> | _]; [lia|]. cbn [negb].
  rewrite run_bind. cbn [print perform run handle].
  rewrite run_keyboard_ok.
  - pose proof (modifier_bits
                  (negb (Z.land (modifiers event) (Qt "ShiftModifier") =? 0))
                  (negb (Z.land (modifiers event) (Qt "ControlModifier") =? 0))
                  (negb (Z.land (modifiers event) (Qt "AltModifier") =? 0)))
      as Hm.
    cbv zeta in Hm. rewrite Hm. reflexivity.
  - exact Ha.
  - pose proof (modifier_bits
                  (negb (Z.land (modifiers event) (Qt "ShiftModifier") =? 0))
                  (negb (Z.land (modifiers event) (Qt "ControlModifier") =? 0))
                  (negb (Z.land (modifiers event) (Qt "AltModifier") =? 0)))
      as Hm.
    cbv zeta in Hm. rewrite Hm. apply modifier_byte_is_u8.
  - unfold Py.is_u8. apply andb_true_intro. split; apply Z.leb_le; lia.
Qed.

(** X21.  [keyPressEvent] never raises (the controller's address being a
    byte) and never reads.  It writes nothing for an auto-repeat event or for
    a key that is not in the map; for any other event it writes one frame, the
    keyboard report [m, 0, 0, 0, code, 0, 0, 0] with [code] the usage code of
    the key and [m] the modifier byte: bit 0 set when Control is held, bit 1
    when Shift is, bit 2 when Alt is, and no other bit. *)
Theorem key_press_sends (Qt : string -> Z) (Qt_dir : list string)
    (self : KeyCaptureWindow) (event : QKeyEvent) (w : World) :
  Py.is_u8 (addr (device self)) = true ->
  let shift := negb (Z.land (modifiers event) (Qt "ShiftModifier") =? 0) in
  let control := negb (Z.land (modifiers event) (Qt "ControlModifier") =? 0) in
  let alt := negb (Z.land (modifiers event) (Qt "AltModifier") =? 0) in
  exists m w',
    run (keyPressEvent Qt Qt_dir self event) w = (Ok tt, w') /\
    serial_rx w' = serial_rx w /\
    serial_log w'
    = serial_log w ++
      (if isAutoRepeat event then []
       else match dict_get (qt_to_hid_int_map Qt) (key event) with
            | Some code =>
                [Wrote (frame (addr (device self)) 0x02
                          [m; 0; 0; 0; code; 0; 0; 0])]
            | None => []
            end) /\
    0 <= m <= 7 /\
    Z.testbit m 0 = control /\ Z.testbit m 1 = shift /\ Z.testbit m 2 = alt.
Proof.
  intros Ha shift control alt.
  exists (modifier_byte shift control alt).
  pose proof (key_press_run Qt Qt_dir self event w Ha) as E. cbv zeta in E.
  fold shift control alt in E. rewrite E.
  assert (Hm : 0 <= modifier_byte shift control alt <= 7 /\
               Z.testbit (modifier_byte shift control alt) 0 = control /\
               Z.testbit (modifier_byte shift control alt) 1 = shift /\
               Z.testbit (modifier_byte shift control alt) 2 = alt)
    by (destruct shift, control, alt; cbv; intuition congruence).
  destruct (isAutoRepeat event).
  - exists w. rewrite app_nil_r. repeat split; apply Hm.
  - destruct (dict_get (qt_to_hid_int_map Qt) (key event)) as [h|].
    + eexists. split; [reflexivity|]. repeat split; apply Hm.
    + eexists. split; [reflexivity|]. cbn [printed serial_rx serial_log].
      rewrite app_nil_r. repeat split; apply Hm.
Qed.

Lemma key_press_sends_witness :
  let Qt := fun name : string =>
              if String.eqb name "Key_A" then 0x41
              else if String.eqb name "ShiftModifier" then 0x02000000
              else if String.eqb name "ControlModifier" then 0x04000000
              else if String.eqb name "AltModifier" then 0x08000000
              else 0x01000000 + Z.of_nat (String.length name) in
  let self := mkKeyCaptureWindow (mkNanoKVM 0x00) in
  let event := mkQKeyEvent false 0x02000000 0x41 in
  Py.is_u8 (addr (device self)) = true /\
  exists m w',
    run (keyPressEvent Qt ["Key_A"] self event) world0 = (Ok tt, w') /\
    serial_log w'
    = [Wrote (frame 0x00 0x02 [m; 0; 0; 0; 0x04; 0; 0; 0])] /\
    Z.testbit m 0 = false /\ Z.testbit m 1 = true /\ Z.testbit m 2 = false.
Proof.
  cbv zeta. split; [reflexivity|].
  destruct (key_press_sends
              (fun name : string =>
                 if String.eqb name "Key_A" then 0x41
                 else if String.eqb name "ShiftModifier" then 0x02000000
                 else if String.eqb name "ControlModifier" then 0x04000000
                 else if String.eqb name "AltModifier" then 0x08000000
                 else 0x01000000 + Z.of_nat (String.length name))
              ["Key_A"] (mkKeyCaptureWindow (mkNanoKVM 0x00))
              (mkQKeyEvent false 0x02000000 0x41) world0 eq_refl)
    as (m & w' & E & _ & Hlog & _ & H0 & H1 & H2).
  exists m, w'. split; [exact E|].
  split; [exact Hlog|]. split; [exact H0|]. split; [exact H1 | exact H2].
Defined.

(** X22.  [keyReleaseEvent] does not look at its event: for every event,
    whichever key it names and also when it is an auto-repeat, it writes the
    all-zero report.  So an auto-repeat of a held key, which Qt delivers as a
    release followed by a press, puts the release report on the wire and no
    press after it, because [keyPressEvent] drops the auto-repeat press. *)
Theorem key_release_always_sends (Qt : string -> Z) (Qt_dir : list string)
    (self : KeyCaptureWindow) (released repeated : QKeyEvent) (w : World) :
  Py.is_u8 (addr (device self)) = true ->
  isAutoRepeat repeated = true ->
  let all_released :=
    frame (addr (device self)) 0x02 [0; 0; 0; 0; 0; 0; 0; 0] in
  run (keyReleaseEvent self released) w = (Ok tt, written w all_released) /\
  run (keyReleaseEvent self released ;;
       keyPressEvent Qt Qt_dir self repeated)%prog w
  = (Ok tt, written w all_released).
Proof.
  intros Ha Hrep all_released.
  assert (E : run (keyReleaseEvent self released) w
              = (Ok tt, written w all_released))
    by (unfold keyReleaseEvent; apply run_keyboard_ok;
        [exact Ha | reflexivity | reflexivity]).
  split; [exact E|].
  rewrite run_bind, E. unfold keyPressEvent. rewrite Hrep. reflexivity.
Qed.

Lemma key_release_always_sends_witness :
  let Qt := fun name : string => Z.of_nat (String.length name) in
  let self := mkKeyCaptureWindow (mkNanoKVM 0x00) in
  let released := mkQKeyEvent true 0 0x41 in
  let repeated := mkQKeyEvent true 0 0x41 in
  Py.is_u8 (addr (device self)) = true /\ isAutoRepeat repeated = true /\
  run (keyReleaseEvent self released ;;
       keyPressEvent Qt [] self repeated)%prog world0
  = (Ok tt,
     written world0
       [0x57; 0xAB; 0x00; 0x02; 0x08; 0; 0; 0; 0; 0; 0; 0; 0; 0x0C]).
Proof.
  cbv zeta. split; [reflexivity|]. split; [reflexivity|].
  destruct (key_release_always_sends
              (fun name : string => Z.of_nat (String.length name)) []
              (mkKeyCaptureWindow (mkNanoKVM 0x00))
              (mkQKeyEvent true 0 0x41) (mkQKeyEvent true 0 0x41)
              world0 eq_refl eq_refl) as [_ H].
  exact H.
Defined.

(** X23.  [qt_key_code_to_name(code)] answers with a name of [dir(Qt)]
    that starts with [Key_] and whose value is [code], whenever there is one
    (the last one in [dir(Qt)] when there are several); when there is none it
    answers ["UnknownKey(<code>)"].  It never fails. *)
Theorem key_code_name_lookup (Qt : string -> Z) (Qt_dir : list string)
    (code : Z) :
  let answer := qt_key_code_to_name Qt Qt_dir code in
  ((exists name, In name Qt_dir /\ String.prefix "Key_" name = true /\
                 Qt name = code) ->
   In answer Qt_dir /\ String.prefix "Key_" answer = true /\
   Qt answer = code) /\
  ((forall name, In name Qt_dir -> String.prefix "Key_" name = true ->
                 Qt name <> code) ->
   answer = ("UnknownKey(" ++ str_int code ++ ")")%string).
Proof.
  cbv zeta. unfold qt_key_code_to_name, qt_key_name_map.
  rewrite dict_get_items.
  set (items := map (fun name => (Qt name, name))
                  (filter (fun name => String.prefix "Key_" name) Qt_dir)).
  destruct (last_item items code) as [n|] eqn:E; split.
  - intros _. apply last_item_in in E. unfold items in E.
    apply in_map_iff in E. destruct E as (name & E & Hin).
    injection E as E1 E2. subst n. apply filter_In in Hin.
    destruct Hin as [Hin Hp]. repeat split; assumption.
  - intros Hnone. exfalso. apply last_item_in in E. unfold items in E.
    apply in_map_iff in E. destruct E as (name & E & Hin).
    injection E as E1 E2. apply filter_In in Hin. destruct Hin as [Hin Hp].
    exact (Hnone name Hin Hp E1).
  - intros (name & Hin & Hp & Hq). exfalso.
    pose proof (proj1 (last_item_none _ items code) E) as En.
    apply (En name). unfold items.
    apply in_map_iff. exists name. split; [rewrite Hq; reflexivity|].
    apply filter_In. split; assumption.
  - intros _. reflexivity.
Qed.

Lemma key_code_name_lookup_witness :
  let Qt := fun name : string =>
              if String.eqb name "Key_A" then 0x41
              else if String.eqb name "Key_B" then 0x42 else 0 in
  let Qt_dir := ["AlignLeft"; "Key_A"; "Key_B"] in
  (exists name, In name Qt_dir /\ String.prefix "Key_" name = true /\
                Qt name = 0x42) /\
  (In (qt_key_code_to_name Qt Qt_dir 0x42) Qt_dir /\
   String.prefix "Key_" (qt_key_code_to_name Qt Qt_dir 0x42) = true /\
   Qt (qt_key_code_to_name Qt Qt_dir 0x42) = 0x42) /\
  (forall name, In name Qt_dir -> String.prefix "Key_" name = true ->
                Qt name <> 0) /\
  qt_key_code_to_name Qt Qt_dir 0 = "UnknownKey(0)".
Proof.
  cbv zeta.
  set (Qt := fun name : string =>
               if String.eqb name "Key_A" then 0x41
               else if String.eqb name "Key_B" then 0x42 else 0).
  assert (Hsome : exists name,
             In name ["AlignLeft"; "Key_A"; "Key_B"] /\
             String.prefix "Key_" name = true /\ Qt name = 0x42)
    by (exists "Key_B"; split; [simpl; tauto | split; reflexivity]).
  assert (Hnone : forall name,
             In name ["AlignLeft"; "Key_A"; "Key_B"] ->
             String.prefix "Key_" name = true -> Qt name <> 0)
    by (intros name [<- | [<- | [<- | []]]] Hp;
        [discriminate Hp | cbv; discriminate | cbv; discriminate]).
  destruct (key_code_name_lookup Qt ["AlignLeft"; "Key_A"; "Key_B"] 0x42)
    as [H1 _].
  destruct (key_code_name_lookup Qt ["AlignLeft"; "Key_A"; "Key_B"] 0)
    as [_ H2].
  split; [exact Hsome|]. split; [exact (H1 Hsome)|].
  split; [exact Hnone | exact (H2 Hnone)].
Defined.

(** ** Payloads that do not fit the length byte *)

(** X24.  [_save] stores the payload length as it is, without reducing
    it to a byte as it does for the checksum.  For a payload of more than 255
    bytes, [encode()] therefore yields a list whose fifth element is over
    255: [bytes] rejects it with [ValueError], so such a packet cannot be put
    on the wire, although [decode] applied to the list itself still recovers
    the packet. *)
Theorem oversized_payload_rejected (address command : Z)
    (payload : list Z) :
  Py.is_u8 address = true -> Py.is_u8 command = true ->
  forallb Py.is_u8 payload = true ->
  (255 < List.length payload)%nat ->
  exists pkt,
    encode_packet address command payload = Ret pkt /\
    nth 4 pkt 0 = Py.len payload /\ 255 < nth 4 pkt 0 /\
    Py.bytes pkt = Raise (ValueError "bytes must be in range(0, 256)") /\
    (forall w, run (write_list pkt) w
               = (Raise (ValueError "bytes must be in range(0, 256)"), w)) /\
    decode_result pkt
    = Decoded (mkCmdPacket address command (Py.len payload) payload
                 (checksum address command payload)).
Proof.
  intros Ha Hc Hp Hlen.
  exists (frame address command payload).
  assert (Hbytes : forallb Py.is_u8 (frame address command payload) = false).
  { rewrite frame_all_bytes, Hp by assumption. cbn [andb].
    apply Z.leb_gt. unfold Py.len. lia. }
  split; [|split; [|split; [|split; [|split]]]].
  - apply encode_packet_frame; [apply is_u8_range in Ha | apply is_u8_range in Hc];
      lia.
  - reflexivity.
  - change (nth 4 (frame address command payload) 0) with (Py.len payload).
    unfold Py.len. lia.
  - unfold Py.bytes. rewrite Hbytes. reflexivity.
  - intros w. rewrite run_write_list, Hbytes. reflexivity.
  - pose proof (decode_result_frame address command payload []) as D.
    rewrite app_nil_r in D. exact D.
Qed.

Lemma oversized_payload_rejected_witness :
  Py.is_u8 0x00 = true /\ Py.is_u8 0x06 = true /\
  forallb Py.is_u8 (repeat 0x00 256) = true /\
  (255 < List.length (repeat 0x00 256))%nat /\
  exists pkt,
    encode_packet 0x00 0x06 (repeat 0x00 256) = Ret pkt /\
    nth 4 pkt 0 = Py.len (repeat 0x00 256) /\ 255 < nth 4 pkt 0 /\
    Py.bytes pkt = Raise (ValueError "bytes must be in range(0, 256)") /\
    (forall w, run (write_list pkt) w
               = (Raise (ValueError "bytes must be in range(0, 256)"), w)) /\
    decode_result pkt
    = Decoded (mkCmdPacket 0x00 0x06 (Py.len (repeat 0x00 256))
                 (repeat 0x00 256)
                 (checksum 0x00 0x06 (repeat 0x00 256))).
Proof.
  split; [reflexivity|]. split; [reflexivity|]. split; [reflexivity|].
  split; [rewrite repeat_length; lia|].
  apply (oversized_payload_rejected 0x00 0x06 (repeat 0x00 256));
    [reflexivity | reflexivity | reflexivity | rewrite repeat_length; lia].
Defined.
